(** * Header/Meta Checker: a shallow embedding of [header-meta-checker.user.js]

    The userscript inspects one page per run: it classifies the page (funnel
    on [get-honey.ai] or not), checks either the robots.txt document or the
    robots meta tag for the left panel, checks the [x-robots-tag] response
    header for the right panel and hands both results to the banner.

    Strings.  A JavaScript string is a sequence of UTF-16 code units.  The
    model uses [string], whose characters are the code units 0..255 (the
    Latin-1 range): [window.location.pathname] is percent-encoded ASCII, and
    on this range [toLowerCase], [trim] and the case-insensitive regular
    expression are character-wise, which is how they are written below.

    Effects.  The browsing context (location, the document's meta tag, the
    answers of [GM_xmlhttpRequest]) is a record [World] read by the
    functions.  A promise that is awaited is its resolved value.  A thrown
    [TypeError] is carried by the [Completion] monad. *)

From Stdlib Require Import String Ascii List Bool Arith ZArith Lia.
Import ListNotations.
Open Scope string_scope.
Open Scope bool_scope.
Open Scope nat_scope.

(** ** JavaScript string primitives *)

Module JS.

(** [s.length] is [String.length]; [s + t] is [String.append]. *)

Definition codeUnit (c : ascii) : nat := nat_of_ascii c.

(** [String.prototype.toLowerCase] on one code unit below 256: the ASCII
    capitals and the Latin-1 capitals U+00C0..U+00DE (without U+00D7, the
    multiplication sign) move up by 32. *)
Definition isUpperCase (c : ascii) : bool :=
  let n := codeUnit c in
  ((65 <=? n) && (n <=? 90)) ||
  ((192 <=? n) && (n <=? 222) && negb (n =? 215)).

Definition toLowerCaseChar (c : ascii) : ascii :=
  if isUpperCase c then ascii_of_nat (codeUnit c + 32) else c.

Fixpoint toLowerCase (s : string) : string :=
  match s with
  | EmptyString => EmptyString
  | String c s' => String (toLowerCaseChar c) (toLowerCase s')
  end.

(** White space and line terminators below 256: TAB, LF, VT, FF, CR, SP and
    NBSP.  This is the class removed by [trim] and matched by [\s]. *)
Definition isWhiteSpace (c : ascii) : bool :=
  let n := codeUnit c in
  ((9 <=? n) && (n <=? 13)) || (n =? 32) || (n =? 160).

(** Line terminators below 256; [.] in a regular expression without the
    [s] flag matches every other character. *)
Definition isLineTerminator (c : ascii) : bool :=
  let n := codeUnit c in (n =? 10) || (n =? 13).

Fixpoint trimStart (s : string) : string :=
  match s with
  | EmptyString => EmptyString
  | String c s' => if isWhiteSpace c then trimStart s' else s
  end.

Fixpoint trimEnd (s : string) : string :=
  match s with
  | EmptyString => EmptyString
  | String c s' =>
      match trimEnd s' with
      | EmptyString => if isWhiteSpace c then EmptyString else String c EmptyString
      | t => String c t
      end
  end.

Definition trim (s : string) : string := trimEnd (trimStart s).

(** [s.startsWith(p)]. *)
Fixpoint startsWith (s p : string) {struct p} : bool :=
  match p, s with
  | EmptyString, _ => true
  | String _ _, EmptyString => false
  | String a p', String b s' => Ascii.eqb a b && startsWith s' p'
  end.

(** [s.endsWith(p)]: some tail of [s] is [p]. *)
Fixpoint endsWith (s p : string) : bool :=
  String.eqb s p ||
  match s with
  | EmptyString => false
  | String _ s' => endsWith s' p
  end.

(** [s.includes(p)]: [p] starts at some position of [s]. *)
Fixpoint includes (s p : string) : bool :=
  startsWith s p ||
  match s with
  | EmptyString => false
  | String _ s' => includes s' p
  end.

(** [s.slice(start, end)] with the relative (negative) indices of
    JavaScript resolved against the length and clamped. *)
Definition slice (s : string) (start stop : Z) : string :=
  let len := Z.of_nat (String.length s) in
  let from := if (start <? 0)%Z then Z.max (len + start) 0 else Z.min start len in
  let to := if (stop <? 0)%Z then Z.max (len + stop) 0 else Z.min stop len in
  String.substring (Z.to_nat from) (Z.to_nat (to - from)) s.

(** [s.substring(start)] for a start that is a non-negative integer. *)
Definition substringFrom (s : string) (start : nat) : string :=
  let len := String.length s in
  let from := Nat.min start len in
  String.substring from (len - from) s.

(** [s.split(sep)] for a separator of one code unit: always at least one
    piece, the pieces never contain the separator. *)
Fixpoint split (s : string) (sep : ascii) : list string :=
  match s with
  | EmptyString => [EmptyString]
  | String c s' =>
      if Ascii.eqb c sep then EmptyString :: split s' sep
      else match split s' sep with
           | piece :: pieces => String c piece :: pieces
           | [] => [String c EmptyString]
           end
  end.

(** [xs.includes(x)] on an array of strings. *)
Definition arrayIncludes (xs : list string) (x : string) : bool :=
  existsb (String.eqb x) xs.

Definition LF : ascii := "010"%char.
Definition DQUOTE : string := String "034"%char EmptyString.

(** The value a template literal interpolates: [null] prints as [null]. *)
Definition templateValue (v : option string) : string :=
  match v with
  | Some s => s
  | None => "null"
  end.

End JS.

(** ** The regular expression of [checkHeaderTag]

    The pattern is the literal [x-robots-tag:], then a starred [\s], then a
    capture group holding a starred dot, with the flag [i].

    [responseHeaders.match(re)] without the [g] flag answers the leftmost
    match and its capture group, or [null].  After the literal header name
    the two starred classes are greedy; as both may match the empty string
    and nothing follows them, the first greedy attempt at the leftmost
    position of the name is the match. *)

Module Regex.

(** Canonicalization of a case-insensitive match without the [u] flag: the
    upper-case form when it is a single code unit.  Code units 181 and 255
    have upper-case forms outside this range, which no character of the
    pattern canonicalizes to, so they are left as they are. *)
Definition canonicalize (c : ascii) : ascii :=
  let n := JS.codeUnit c in
  if ((97 <=? n) && (n <=? 122)) ||
     ((224 <=? n) && (n <=? 254) && negb (n =? 247))
  then ascii_of_nat (n - 32) else c.

(** The literal part of the pattern at the start of [s]; answers the rest
    of [s]. *)
Fixpoint literalIgnoreCase (pat s : string) {struct pat} : option string :=
  match pat, s with
  | EmptyString, _ => Some s
  | String _ _, EmptyString => None
  | String a pat', String b s' =>
      if Ascii.eqb (canonicalize a) (canonicalize b)
      then literalIgnoreCase pat' s' else None
  end.

(** A greedy starred character class: the longest run and what follows. *)
Fixpoint star (class : ascii -> bool) (s : string) : string * string :=
  match s with
  | EmptyString => (EmptyString, EmptyString)
  | String c s' =>
      if class c
      then let (run, rest) := star class s' in (String c run, rest)
      else (EmptyString, s)
  end.

Definition dot (c : ascii) : bool := negb (JS.isLineTerminator c).

(** The pattern anchored at the start of [s]; answers capture group 1. *)
Definition xRobotsTagAt (s : string) : option string :=
  match literalIgnoreCase "x-robots-tag:" s with
  | Some afterName =>
      let (_, afterSpace) := star JS.isWhiteSpace afterName in
      let (group1, _) := star dot afterSpace in
      Some group1
  | None => None
  end.

(** The leftmost match: capture group 1, or [None] for [null]. *)
Fixpoint xRobotsTagMatch (s : string) : option string :=
  match xRobotsTagAt s with
  | Some group1 => Some group1
  | None =>
      match s with
      | EmptyString => None
      | String _ s' => xRobotsTagMatch s'
      end
  end.

End Regex.

(** ** Results, errors and the browsing context *)

(** The [status] strings ['ok'], ['bad'] and ['not-found']. *)
Inductive Status : Type := ok | bad | not_found.

Record Result : Type := mkResult { message : string; status : Status }.

Inductive Error : Type := TypeError.

Inductive Completion (A : Type) : Type :=
| Normal (a : A)
| Throw (e : Error).
Arguments Normal {A} a.
Arguments Throw {A} e.

Definition bind {A B : Type} (c : Completion A) (k : A -> Completion B) : Completion B :=
  match c with
  | Normal a => k a
  | Throw e => Throw e
  end.

Notation "x <- c ;; k" := (bind c (fun x => k))
  (at level 61, c at next level, right associativity).

Inductive Method : Type := GET | HEAD.

Record Response : Type := mkResponse {
  responseText : string;
  responseHeaders : string
}.

(** One request either reaches [onload] with a response or [onerror]. *)
Inductive XhrOutcome : Type :=
| onload (response : Response)
| onerror.

(** [metaTag] is the answer of [document.querySelector('meta[name="robots"]')]:
    [None] when there is no such element, otherwise the element's [content]
    attribute as [getAttribute] returns it, [None] standing for [null]. *)
Record World : Type := mkWorld {
  location_hostname : string;
  location_pathname : string;
  location_href : string;
  metaTag : option (option string);
  GM_xmlhttpRequest : Method -> string -> XhrOutcome
}.

(** The CONFIGURATION block of the script. *)
Record Config : Type := mkConfig {
  funnelPaths : list string;
  robotsTxtUrl : string
}.

(** ** The script *)

(** The body shared by [getNormalizedPathname] and by the matcher's
    treatment of a rule path: one trailing slash is removed from a path
    longer than one character. *)
Definition normalizePathname (pathname : string) : string :=
  if (1 <? String.length pathname) && JS.endsWith pathname "/"
  then JS.slice pathname 0 (-1)
  else pathname.

(** Step 1 of the [onload] handler of [checkRobotsTxtForPath]: the rule
    paths of the document's [Disallow] lines. *)
Definition disallowedPaths (robotsTxtContent : string) : list string :=
  map (fun line => JS.trim (JS.substringFrom line (String.length "disallow:")))
    (filter (fun line => JS.startsWith line "disallow:")
      (map (fun line => JS.toLowerCase (JS.trim line))
        (JS.split robotsTxtContent JS.LF))).

(** The callback given to [some] in step 2. *)
Definition disallows (currentPath disallowedPath : string) : bool :=
  let normalizedDisallowedPath :=
    if (1 <? String.length disallowedPath) && JS.endsWith disallowedPath "/"
    then JS.slice disallowedPath 0 (-1)
    else disallowedPath in
  if String.eqb normalizedDisallowedPath "" then false
  else String.eqb currentPath normalizedDisallowedPath ||
       JS.startsWith currentPath (normalizedDisallowedPath ++ "/").

Definition isDisallowed (robotsTxtContent currentPath : string) : bool :=
  existsb (disallows currentPath) (disallowedPaths robotsTxtContent).

(** [v.toLowerCase()] on a value that may be [null]. *)
Definition callToLowerCase (v : option string) : Completion string :=
  match v with
  | Some s => Normal (JS.toLowerCase s)
  | None => Throw TypeError
  end.

Section Script.

Variable cfg : Config.
Variable w : World.

Definition getNormalizedPathname : string :=
  let pathname := location_pathname w in
  if (1 <? String.length pathname) && JS.endsWith pathname "/"
  then JS.slice pathname 0 (-1)
  else pathname.

Definition shouldUseStandardLogic : bool :=
  let hostname := location_hostname w in
  let pathname := getNormalizedPathname in
  if String.eqb hostname "get-honey.ai"
  then negb (JS.arrayIncludes (funnelPaths cfg) pathname)
  else false.

Definition checkRobotsTxtForPath (currentPath : string) : Result :=
  match GM_xmlhttpRequest w GET (robotsTxtUrl cfg) with
  | onload response =>
      let robotsTxtContent := responseText response in
      if isDisallowed robotsTxtContent currentPath
      then mkResult "robots.txt: Disallowed" ok
      else mkResult "robots.txt: NOT Disallowed" bad
  | onerror => mkResult "robots.txt: Fetch Error" not_found
  end.

Definition checkMetaTag : Completion Result :=
  match metaTag w with
  | Some content =>
      let message :=
        "Meta: content=" ++ JS.DQUOTE ++ JS.templateValue content ++ JS.DQUOTE in
      hasNoindex <- (lowered <- callToLowerCase content ;;
                     Normal (JS.includes lowered "noindex")) ;;
      isRestrictive <- (if hasNoindex then Normal true
                        else lowered <- callToLowerCase content ;;
                             Normal (JS.includes lowered "nofollow")) ;;
      let status :=
        if shouldUseStandardLogic
        then (if isRestrictive then bad else ok)
        else (if isRestrictive then ok else bad) in
      Normal (mkResult message status)
  | None => Normal (mkResult "Meta: tag not found" not_found)
  end.

Definition checkHeaderTag : Result :=
  match GM_xmlhttpRequest w HEAD (location_href w) with
  | onload response =>
      let headerMatch := Regex.xRobotsTagMatch (responseHeaders response) in
      let isStandard := shouldUseStandardLogic in
      match headerMatch with
      | Some group1 =>
          let headerValue := JS.trim group1 in
          let message := "Header: x-robots-tag: " ++ headerValue in
          let isRestrictive :=
            JS.includes (JS.toLowerCase headerValue) "noindex" ||
            JS.includes (JS.toLowerCase headerValue) "nofollow" in
          let status :=
            if isStandard
            then (if isRestrictive then bad else ok)
            else (if isRestrictive then ok else bad) in
          mkResult message status
      | None =>
          mkResult "Header: not found" (if isStandard then ok else bad)
      end
  | onerror => mkResult "Header: Request error" not_found
  end.

(** [runChecks] answers the two results it hands to [displaySplitBanner];
    an exception leaves the banner undisplayed. *)
Definition runChecks : Completion (Result * Result) :=
  let hostname := location_hostname w in
  let pathname := getNormalizedPathname in
  let isFunnel :=
    String.eqb hostname "get-honey.ai" &&
    JS.arrayIncludes (funnelPaths cfg) pathname in
  leftPanelResult <-
    (if isFunnel then
       let robotsResult := checkRobotsTxtForPath pathname in
       match status robotsResult with
       | ok => Normal robotsResult
       | _ => checkMetaTag
       end
     else checkMetaTag) ;;
  let rightPanelResult := checkHeaderTag in
  Normal (leftPanelResult, rightPanelResult).

(** The two panels of a run. *)
Definition leftPanel : Completion Result :=
  r <- runChecks ;; Normal (fst r).

Definition rightPanel : Completion Result :=
  r <- runChecks ;; Normal (snd r).

(** The page is a funnel: the test [isFunnel] of [runChecks]. *)
Definition isFunnel : bool :=
  String.eqb (location_hostname w) "get-honey.ai" &&
  JS.arrayIncludes (funnelPaths cfg) getNormalizedPathname.

End Script.

(** The local constant [isRestrictive] of both checks, for a value that
    is a string. *)
Definition isRestrictive (value : string) : bool :=
  JS.includes (JS.toLowerCase value) "noindex" ||
  JS.includes (JS.toLowerCase value) "nofollow".

(** ** Vocabulary of the specification *)

(** "Case-insensitively contains": some substring of [s] is [token] up to
    letter case. *)
Definition ContainsIgnoreCase (s token : string) : Prop :=
  exists pre mid post, s = pre ++ mid ++ post /\ JS.toLowerCase mid = token.

(** A restrictive signal value. *)
Definition Restrictive (value : string) : Prop :=
  ContainsIgnoreCase value "noindex" \/ ContainsIgnoreCase value "nofollow".

(** A string without capital letters. *)
Definition LowerCase (s : string) : Prop := JS.toLowerCase s = s.

(** A character that [toLowerCase] leaves as it is. *)
Definition isLowerChar (c : ascii) : Prop := JS.toLowerCaseChar c = c.

(** Every character of [s] satisfies [P]. *)
Fixpoint EveryChar (P : ascii -> Prop) (s : string) : Prop :=
  match s with
  | EmptyString => True
  | String c s' => P c /\ EveryChar P s'
  end.

(** The first [n] characters of [s]. *)
Definition firstChars (n : nat) (s : string) : string := String.substring 0 n s.

(** The same browsing context at another path. *)
Definition atPathname (w : World) (pathname : string) : World :=
  mkWorld (location_hostname w) pathname (location_href w) (metaTag w)
          (GM_xmlhttpRequest w).

(** The same configuration with an empty funnel registry: every page of
    the primary host is then an ordinary page. *)
Definition asOrdinary (cfg : Config) : Config :=
  mkConfig [] (robotsTxtUrl cfg).

(** ** Sample pages *)

Module Sample.

Definition robotsTxt : string :=
  "Disallow: /a" ++ String JS.LF "Disallow: /b/".

Definition config : Config :=
  mkConfig ["/f"; "/quiz"] "https://get-honey.ai/robots.txt".

Definition answers (robots head : XhrOutcome) (m : Method) (url : string) : XhrOutcome :=
  match m with
  | GET => robots
  | HEAD => head
  end.

Definition plainHeaders : Response :=
  mkResponse "" "content-type: text/html".

(** A funnel page that robots.txt does not disallow and whose meta tag
    says [noindex]. *)
Definition funnelNoindex : World :=
  mkWorld "get-honey.ai" "/f/" "https://get-honey.ai/f/"
          (Some (Some "noindex"))
          (answers (onload (mkResponse robotsTxt "")) (onload plainHeaders)).

(** The same funnel with the meta content [noindex, nofollow]. *)
Definition funnelNoindexNofollow : World :=
  mkWorld "get-honey.ai" "/f/" "https://get-honey.ai/f/"
          (Some (Some "noindex, nofollow"))
          (answers (onload (mkResponse robotsTxt "")) (onload plainHeaders)).

(** The funnel when the robots.txt request fails. *)
Definition funnelFetchError : World :=
  mkWorld "get-honey.ai" "/f" "https://get-honey.ai/f"
          (Some (Some "noindex"))
          (answers onerror (onload plainHeaders)).

(** A page with the given robots meta content and without the header. *)
Definition pageWithMeta (hostname pathname content : string) : World :=
  mkWorld hostname pathname ("https://" ++ hostname ++ pathname)
          (Some (Some content))
          (answers onerror (onload plainHeaders)).

(** A page of another site, without a meta tag and without the header. *)
Definition otherSite : World :=
  mkWorld "example.org" "/" "https://example.org/" None
          (answers onerror (onload plainHeaders)).

(** The home page of the primary host, without meta tag or header. *)
Definition homePage : World :=
  mkWorld "get-honey.ai" "/" "https://get-honey.ai/" None
          (answers onerror (onload plainHeaders)).

(** A page whose meta element has no [content] attribute. *)
Definition metaWithoutContent : World :=
  mkWorld "example.org" "/" "https://example.org/" (Some None)
          (answers onerror (onload plainHeaders)).

End Sample.

(** ** The banner colours *)

(** The string a [status] field holds. *)
Definition statusString (s : Status) : string :=
  match s with
  | ok => "ok"
  | bad => "bad"
  | not_found => "not-found"
  end.

Definition getStatusColor (status : string) : string :=
  if String.eqb status "ok" then "#388E3C"
  else if String.eqb status "bad" then "#D32F2F"
  else if String.eqb status "not-found" then "#F57C00"
  else "#616161".

(** ** Further vocabulary *)

Definition WhiteSpaceChar (c : ascii) : Prop := JS.isWhiteSpace c = true.

Definition DotChar (c : ascii) : Prop := Regex.dot c = true.

(** The first character of [s], when there is one, satisfies [P]. *)
Definition HeadChar (P : ascii -> Prop) (s : string) : Prop :=
  match s with
  | EmptyString => True
  | String c _ => P c
  end.

(** A character other than the line feed. *)
Definition NotLF (c : ascii) : Prop := Ascii.eqb c JS.LF = false.

(** A character that the case-insensitive pattern matches exactly when
    [toLowerCase] sends the subject's character to it. *)
Definition FoldsLikeLower (a : ascii) : Prop :=
  forall b, Ascii.eqb (Regex.canonicalize a) (Regex.canonicalize b)
            = Ascii.eqb (JS.toLowerCaseChar b) a.

Definition CR : ascii := "013"%char.

Definition SlashChar (c : ascii) : Prop := c = "/"%char.

Definition NotSlashChar (c : ascii) : Prop := c <> "/"%char.

(** The CONFIGURATION block as the script is published. *)
Definition shippedConfig : Config := mkConfig [""] "".

(** The same browsing context with other answers to the requests. *)
Definition withAnswers (w : World) (answers : Method -> string -> XhrOutcome) : World :=
  mkWorld (location_hostname w) (location_pathname w) (location_href w)
          (metaTag w) answers.

(** ** More sample pages *)

Module Demo.

(** A page whose HEAD request answers the given header block. *)
Definition pageWithHeaders
    (hostname pathname : string) (meta : option (option string))
    (headers : string) : World :=
  mkWorld hostname pathname ("https://" ++ hostname ++ pathname) meta
          (Sample.answers (onload (mkResponse Sample.robotsTxt ""))
                          (onload (mkResponse "" headers))).

(** A header block in which [x-robots-tag] has no value and another header
    follows. *)
Definition emptyTagHeaders : string :=
  "x-robots-tag:" ++ String CR (String JS.LF "content-type: text/html").

(** A header block that names the header in capitals after another one. *)
Definition noindexHeaders : string :=
  "content-type: text/html" ++ String CR (String JS.LF "X-Robots-Tag: noindex")
  ++ String CR (String JS.LF "server: nginx").

(** A funnel page that robots.txt disallows and whose meta element has no
    content attribute. *)
Definition disallowedFunnel : World :=
  mkWorld "get-honey.ai" "/a/" "https://get-honey.ai/a/" (Some None)
          (Sample.answers (onload (mkResponse Sample.robotsTxt "")) onerror).

Definition config : Config :=
  mkConfig ["/a"; "/f"] "https://get-honey.ai/robots.txt".

End Demo.

(** ** Lemmas on the string primitives *)

Lemma length_app (s t : string) :
  String.length (s ++ t) = String.length s + String.length t.
Proof. induction s as [|c s IH]; simpl; [reflexivity | now rewrite IH]. Qed.

Lemma app_empty_r (s : string) : s ++ "" = s.
Proof. induction s as [|c s IH]; simpl; [reflexivity | now rewrite IH]. Qed.

Lemma app_assoc (s t u : string) : (s ++ t) ++ u = s ++ t ++ u.
Proof. induction s as [|c s IH]; simpl; [reflexivity | now rewrite IH]. Qed.

Lemma substring_0_app (s t : string) :
  String.substring 0 (String.length s) (s ++ t) = s.
Proof.
  induction s as [|c s IH]; simpl.
  - destruct t; reflexivity.
  - now rewrite IH.
Qed.

Lemma endsWith_iff (s p : string) :
  JS.endsWith s p = true <-> exists r, s = r ++ p.
Proof.
  induction s as [|c s IH]; cbn [JS.endsWith].
  - rewrite orb_false_r, String.eqb_eq. split.
    + intros <-. now exists "".
    + intros [[|] H]; simpl in H; [congruence | discriminate].
  - rewrite orb_true_iff, String.eqb_eq, IH. split.
    + intros [<- | [r ->]]; [now exists "" | now exists (String c r)].
    + intros [[|d r] H]; simpl in H; [now left | right].
      injection H as _ ->. now exists r.
Qed.

Lemma slice_drop_last (s : string) (c : ascii) :
  JS.slice (s ++ String c "") 0 (-1) = s.
Proof.
  unfold JS.slice. rewrite length_app. cbn [String.length].
  replace (0 <? 0)%Z with false by reflexivity.
  replace (-1 <? 0)%Z with true by reflexivity.
  rewrite Z.min_l by lia. rewrite Z.max_l by lia.
  replace (Z.to_nat 0) with 0 by reflexivity.
  replace (Z.to_nat (Z.of_nat (String.length s + 1) + -1 - 0)) with (String.length s) by lia.
  apply substring_0_app.
Qed.

(** The normalizer either keeps the path or removes its final slash. *)
Lemma normalizePathname_cases (p : string) :
  (normalizePathname p = p /\
   ((1 <? String.length p) && JS.endsWith p "/" = false)) \/
  (exists q, p = q ++ "/" /\ 1 <= String.length q /\ normalizePathname p = q).
Proof.
  unfold normalizePathname.
  destruct ((1 <? String.length p) && JS.endsWith p "/") eqn:E.
  - right. apply andb_true_iff in E as [L H].
    apply endsWith_iff in H as [q ->]. exists q.
    apply Nat.ltb_lt in L. rewrite length_app in L. cbn in L.
    split; [reflexivity | split; [lia | apply slice_drop_last]].
  - now left.
Qed.

Lemma getNormalizedPathname_eq (w : World) :
  getNormalizedPathname w = normalizePathname (location_pathname w).
Proof. reflexivity. Qed.

Lemma endsWith_append (r p : string) : JS.endsWith (r ++ p) p = true.
Proof. apply endsWith_iff. now exists r. Qed.

Lemma app_inj_last (s t : string) (c d : ascii) :
  s ++ String c "" = t ++ String d "" -> s = t /\ c = d.
Proof.
  revert t. induction s as [|a s IH]; intros [|b t] H; simpl in H.
  - injection H as ->. now split.
  - injection H as _ H. destruct t; discriminate.
  - injection H as _ H. destruct s; discriminate.
  - injection H as -> H. apply IH in H as [-> ->]. now split.
Qed.

(** ** The path normalizer (C8) *)

Lemma normalizeAt_eq (w : World) (p : string) :
  getNormalizedPathname (atPathname w p) = normalizePathname p.
Proof. reflexivity. Qed.

(** A result of the normalizer is stable exactly when it has no trailing
    slash left to remove. *)
Lemma normalizePathname_stable_iff (q : string) :
  normalizePathname q = q <->
  (1 <? String.length q) && JS.endsWith q "/" = false.
Proof.
  destruct (normalizePathname_cases q) as [[E F] | (r & -> & L & E)].
  - now split.
  - rewrite E. split.
    + intros H. apply (f_equal String.length) in H.
      rewrite length_app in H. cbn in H. lia.
    + rewrite endsWith_append, andb_true_r. intros H.
      apply Nat.ltb_ge in H. rewrite length_app in H. cbn in H. lia.
Qed.

(** C8 (as amended): normalizing twice gives the result of normalizing once
    exactly for the paths that do not end in two slashes after at least one
    more character; the root path is a fixed point. *)
Theorem normalize_twice_iff (w : World) (p : string) :
  (getNormalizedPathname (atPathname w (getNormalizedPathname (atPathname w p)))
     = getNormalizedPathname (atPathname w p)
   <-> (2 <? String.length p) && JS.endsWith p "//" = false)
  /\ getNormalizedPathname (atPathname w "/") = "/".
Proof.
  split; [| reflexivity].
  rewrite !normalizeAt_eq, normalizePathname_stable_iff.
  destruct (normalizePathname_cases p) as [[E F] | (q & -> & L & E)].
  - rewrite E, F. split; [intros _ | reflexivity].
    destruct (JS.endsWith p "//") eqn:H; [| apply andb_false_r].
    apply endsWith_iff in H as [r ->].
    replace (r ++ "//") with ((r ++ "/") ++ "/") in F by now rewrite app_assoc.
    rewrite endsWith_append, andb_true_r in F.
    apply Nat.ltb_ge in F. rewrite !length_app in F. cbn in F.
    apply andb_false_intro1, Nat.ltb_ge. rewrite length_app. cbn. lia.
  - rewrite E, length_app. cbn [String.length].
    assert (Hlen : (2 <? String.length q + 1) = (1 <? String.length q)).
    { destruct (Nat.ltb_spec 2 (String.length q + 1)),
               (Nat.ltb_spec 1 (String.length q)); (reflexivity || lia). }
    rewrite Hlen.
    assert (Hend : JS.endsWith (q ++ "/") "//" = JS.endsWith q "/").
    { destruct (JS.endsWith q "/") eqn:H.
      - apply endsWith_iff in H as [r ->]. rewrite app_assoc.
        apply endsWith_append.
      - destruct (JS.endsWith (q ++ "/") "//") eqn:H'; [| reflexivity].
        apply endsWith_iff in H' as [r H'].
        replace (r ++ "//") with ((r ++ "/") ++ "/") in H' by now rewrite app_assoc.
        apply app_inj_last in H' as [-> _].
        now rewrite endsWith_append in H. }
    now rewrite Hend.
Qed.

(** C8 (as stated) fails: [/a//] normalizes to [/a/], and that to [/a]. *)
Lemma normalize_not_idempotent :
  getNormalizedPathname
    (atPathname Sample.homePage
       (getNormalizedPathname (atPathname Sample.homePage "/a//")))
  <> getNormalizedPathname (atPathname Sample.homePage "/a//").
Proof. vm_compute. discriminate. Qed.

(** ** The exclusion-rule matcher (C7, C10) *)

Lemma startsWith_iff (s p : string) :
  JS.startsWith s p = true <-> exists r, s = p ++ r.
Proof.
  revert s. induction p as [|a p IH]; intros s; simpl.
  - split; [intros _; now exists s | reflexivity].
  - destruct s as [|b s].
    + split; [discriminate | intros [r H]; discriminate].
    + rewrite andb_true_iff, Ascii.eqb_eq, IH. split.
      * intros [-> [r ->]]. now exists r.
      * intros [r H]. injection H as -> ->. split; [reflexivity | now exists r].
Qed.

Lemma disallows_normalizes (path rule : string) :
  disallows path rule =
  if String.eqb (normalizePathname rule) "" then false
  else String.eqb path (normalizePathname rule) ||
       JS.startsWith path (normalizePathname rule ++ "/").
Proof. reflexivity. Qed.

Lemma disallows_iff (path rule : string) :
  disallows path rule = true <->
  normalizePathname rule <> "" /\
  (path = normalizePathname rule \/
   exists rest, path = normalizePathname rule ++ "/" ++ rest).
Proof.
  rewrite disallows_normalizes.
  destruct (String.eqb_spec (normalizePathname rule) "") as [E | N].
  - split; [discriminate | intros [H _]; contradiction].
  - rewrite orb_true_iff, String.eqb_eq, startsWith_iff. split.
    + intros [H | [rest H]]; (split; [exact N |]); [now left | right].
      exists rest. now rewrite <- app_assoc.
    + intros [_ [H | [rest H]]]; [now left | right].
      exists rest. now rewrite app_assoc.
Qed.

(** Where the candidates of a document come from. *)
Lemma disallowedPaths_iff (doc rule : string) :
  In rule (disallowedPaths doc) <->
  exists line, In line (JS.split doc JS.LF) /\
    JS.startsWith (JS.toLowerCase (JS.trim line)) "disallow:" = true /\
    rule = JS.trim (JS.substringFrom (JS.toLowerCase (JS.trim line)) 9).
Proof.
  unfold disallowedPaths. rewrite in_map_iff. split.
  - intros (l & <- & H). apply filter_In in H as [H S].
    apply in_map_iff in H as (line & <- & H). now exists line.
  - intros (line & H & S & ->). eexists. split; [reflexivity |].
    apply filter_In. split; [| exact S].
    apply in_map_iff. now exists line.
Qed.

(** C7: the matcher excludes a path exactly when a non-empty normalized
    candidate of the document equals it or is followed in it by a slash;
    with the rules [/a] and [/b/], the path [/a/x] is excluded and [/ab]
    is not. *)
Theorem matcher_excludes_iff :
  (forall doc path : string,
     isDisallowed doc path = true <->
     exists rule, In rule (disallowedPaths doc) /\
       normalizePathname rule <> "" /\
       (path = normalizePathname rule \/
        exists rest, path = normalizePathname rule ++ "/" ++ rest))
  /\ JS.split Sample.robotsTxt JS.LF = ["Disallow: /a"; "Disallow: /b/"]
  /\ isDisallowed Sample.robotsTxt "/a/x" = true
  /\ isDisallowed Sample.robotsTxt "/ab" = false.
Proof.
  split; [| repeat split; reflexivity].
  intros doc path. unfold isDisallowed. rewrite existsb_exists.
  split; intros (rule & H & M); exists rule; (split; [exact H |]);
    now apply disallows_iff.
Qed.

(** *** Letter case *)

Lemma toLowerCaseChar_idem (c : ascii) : isLowerChar (JS.toLowerCaseChar c).
Proof. destruct c as [[] [] [] [] [] [] [] []]; reflexivity. Qed.

Lemma LowerCase_iff (s : string) : LowerCase s <-> EveryChar isLowerChar s.
Proof.
  unfold LowerCase. induction s as [|c s IH]; simpl.
  - now split.
  - rewrite <- IH. split.
    + intros H. injection H as H1 H2. now split.
    + intros [H1 H2]. now rewrite H1, H2.
Qed.

Lemma toLowerCase_lower (s : string) : EveryChar isLowerChar (JS.toLowerCase s).
Proof.
  induction s as [|c s IH]; simpl; [exact I | split; [apply toLowerCaseChar_idem | exact IH]].
Qed.

Lemma toLowerCase_length (s : string) :
  String.length (JS.toLowerCase s) = String.length s.
Proof. induction s as [|c s IH]; simpl; [reflexivity | now rewrite IH]. Qed.

Section EveryChar.

Variable P : ascii -> Prop.

Lemma EveryChar_app (s t : string) :
  EveryChar P (s ++ t) <-> EveryChar P s /\ EveryChar P t.
Proof.
  induction s as [|c s IH]; simpl; [tauto | rewrite IH; tauto].
Qed.

Lemma EveryChar_trimStart (s : string) :
  EveryChar P s -> EveryChar P (JS.trimStart s).
Proof.
  induction s as [|c s IH]; simpl; [trivial |].
  intros [H1 H2]. destruct (JS.isWhiteSpace c); [auto | now split].
Qed.

Lemma EveryChar_trimEnd (s : string) :
  EveryChar P s -> EveryChar P (JS.trimEnd s).
Proof.
  induction s as [|c s IH]; simpl; [trivial |].
  intros [H1 H2]. specialize (IH H2).
  destruct (JS.trimEnd s) as [|d t].
  - destruct (JS.isWhiteSpace c); simpl; auto.
  - now split.
Qed.

Lemma EveryChar_trim (s : string) : EveryChar P s -> EveryChar P (JS.trim s).
Proof. intros H. now apply EveryChar_trimEnd, EveryChar_trimStart. Qed.

Lemma EveryChar_substring (n m : nat) (s : string) :
  EveryChar P s -> EveryChar P (String.substring n m s).
Proof.
  revert n m. induction s as [|c s IH]; intros [|n] [|m] H; simpl; auto.
  - destruct H as [H1 H2]. split; auto.
  - destruct H as [_ H2]. auto.
  - destruct H as [_ H2]. auto.
Qed.

Lemma EveryChar_normalizePathname (s : string) :
  EveryChar P s -> EveryChar P (normalizePathname s).
Proof.
  intros H. unfold normalizePathname.
  destruct (_ && _); [apply EveryChar_substring |]; exact H.
Qed.

End EveryChar.

Lemma disallowedPaths_lower (doc rule : string) :
  In rule (disallowedPaths doc) -> EveryChar isLowerChar rule.
Proof.
  intros H. apply disallowedPaths_iff in H as (line & _ & _ & ->).
  apply EveryChar_trim, EveryChar_substring, toLowerCase_lower.
Qed.

Lemma firstChars_app (s t : string) : firstChars (String.length s) (s ++ t) = s.
Proof. apply substring_0_app. Qed.

(** C10: every candidate of the document is in lower case, a path matched
    by a candidate is in lower case on the part compared with it, and a
    path with a capital letter is not matched by the candidate that equals
    it up to letter case. *)
Theorem matcher_is_case_sensitive (doc rule : string) :
  In rule (disallowedPaths doc) ->
  LowerCase rule /\
  (forall path, disallows path rule = true ->
     LowerCase (firstChars (String.length (normalizePathname rule)) path)) /\
  (forall path, JS.toLowerCase path = normalizePathname rule ->
     ~ LowerCase path -> disallows path rule = false).
Proof.
  intros H. apply disallowedPaths_lower in H. split; [| split].
  - now apply LowerCase_iff.
  - intros path M. apply disallows_iff in M as [_ M].
    assert (E : firstChars (String.length (normalizePathname rule)) path
                = normalizePathname rule).
    { destruct M as [-> | [rest ->]].
      - rewrite <- (app_empty_r (normalizePathname rule)) at 2.
        apply firstChars_app.
      - apply firstChars_app. }
    rewrite E. now apply LowerCase_iff, EveryChar_normalizePathname.
  - intros path E U. destruct (disallows path rule) eqn:M; [| reflexivity].
    exfalso. apply disallows_iff in M as [_ [M | [rest M]]].
    + apply U. unfold LowerCase. now rewrite E at 1.
    + apply (f_equal String.length) in E, M.
      rewrite toLowerCase_length in E. rewrite E, length_app in M.
      cbn in M. lia.
Qed.

Lemma matcher_is_case_sensitive_witness :
  In "/a" (disallowedPaths Sample.robotsTxt) /\
  LowerCase "/a" /\
  (forall path, disallows path "/a" = true ->
     LowerCase (firstChars (String.length (normalizePathname "/a")) path)) /\
  (forall path, JS.toLowerCase path = normalizePathname "/a" ->
     ~ LowerCase path -> disallows path "/a" = false).
Proof.
  split; [left; reflexivity |].
  apply (matcher_is_case_sensitive Sample.robotsTxt "/a").
  left; reflexivity.
Defined.

Example rule_case_is_folded_path_case_is_not :
  isDisallowed "Disallow: /Quiz" "/Quiz" = false /\
  isDisallowed "Disallow: /Quiz" "/quiz" = true.
Proof. split; reflexivity. Qed.

(** ** Restrictive values *)

Lemma toLowerCase_app (s t : string) :
  JS.toLowerCase (s ++ t) = JS.toLowerCase s ++ JS.toLowerCase t.
Proof. induction s as [|c s IH]; simpl; [reflexivity | now rewrite IH]. Qed.

Lemma toLowerCase_split (s a b : string) :
  JS.toLowerCase s = a ++ b ->
  exists a' b', s = a' ++ b' /\ JS.toLowerCase a' = a /\ JS.toLowerCase b' = b.
Proof.
  revert s. induction a as [|c a IH]; intros s H; simpl in H.
  - exists "", s. now repeat split.
  - destruct s as [|d s]; [discriminate |]. simpl in H. injection H as Hc H.
    destruct (IH s H) as (a' & b' & -> & Ha & Hb).
    exists (String d a'), b'. simpl. now rewrite Hc, Ha.
Qed.

Lemma includes_iff (s p : string) :
  JS.includes s p = true <-> exists pre post, s = pre ++ p ++ post.
Proof.
  induction s as [|c s IH]; cbn [JS.includes].
  - rewrite orb_false_r, startsWith_iff. split.
    + intros [r H]. now exists "", r.
    + intros ([|d pre] & post & H); [now exists post | discriminate].
  - rewrite orb_true_iff, startsWith_iff, IH. split.
    + intros [[r H] | (pre & post & ->)].
      * now exists "", r.
      * now exists (String c pre), post.
    + intros ([|d pre] & post & H).
      * left. now exists post.
      * right. simpl in H. injection H as _ ->. now exists pre, post.
Qed.

Lemma includes_toLowerCase_iff (value token : string) :
  JS.includes (JS.toLowerCase value) token = true <->
  ContainsIgnoreCase value token.
Proof.
  rewrite includes_iff. unfold ContainsIgnoreCase. split.
  - intros (pre & post & H).
    apply toLowerCase_split in H as (pre' & rest & -> & _ & H).
    apply toLowerCase_split in H as (mid & post' & -> & H & _).
    now exists pre', mid, post'.
  - intros (pre & mid & post & -> & <-).
    exists (JS.toLowerCase pre), (JS.toLowerCase post).
    now rewrite !toLowerCase_app.
Qed.

Lemma isRestrictive_iff (value : string) :
  isRestrictive value = true <-> Restrictive value.
Proof.
  unfold isRestrictive, Restrictive.
  now rewrite orb_true_iff, !includes_toLowerCase_iff.
Qed.

Lemma isRestrictive_false_iff (value : string) :
  isRestrictive value = false <-> ~ Restrictive value.
Proof.
  rewrite <- isRestrictive_iff. destruct (isRestrictive value); split;
    congruence.
Qed.

(** ** The two checks *)

Section Checks.

Variable cfg : Config.
Variable w : World.

Lemma checkMetaTag_content (content : string) :
  metaTag w = Some (Some content) ->
  checkMetaTag cfg w =
  Normal (mkResult ("Meta: content=" ++ JS.DQUOTE ++ content ++ JS.DQUOTE)
            (if shouldUseStandardLogic cfg w
             then (if isRestrictive content then bad else ok)
             else (if isRestrictive content then ok else bad))).
Proof.
  intros H. unfold checkMetaTag, isRestrictive. rewrite H. cbn [callToLowerCase bind JS.templateValue].
  destruct (JS.includes (JS.toLowerCase content) "noindex"); reflexivity.
Qed.

Lemma checkMetaTag_absent :
  metaTag w = None ->
  checkMetaTag cfg w = Normal (mkResult "Meta: tag not found" not_found).
Proof. intros H. unfold checkMetaTag. now rewrite H. Qed.

Lemma checkMetaTag_null :
  metaTag w = Some None -> checkMetaTag cfg w = Throw TypeError.
Proof. intros H. unfold checkMetaTag. now rewrite H. Qed.

Lemma checkHeaderTag_absent (response : Response) :
  GM_xmlhttpRequest w HEAD (location_href w) = onload response ->
  Regex.xRobotsTagMatch (responseHeaders response) = None ->
  checkHeaderTag cfg w =
  mkResult "Header: not found" (if shouldUseStandardLogic cfg w then ok else bad).
Proof. intros H M. unfold checkHeaderTag. now rewrite H, M. Qed.

End Checks.

(** C6: for a present content, standard polarity maps a restrictive value
    to BAD and any other value to OK, inverted polarity maps them to OK and
    BAD; [noindex] is restrictive and [index, follow] is not. *)
Theorem meta_verdict_mapping :
  (forall (cfg : Config) (w : World) (content : string),
     metaTag w = Some (Some content) ->
     exists msg st,
       checkMetaTag cfg w = Normal (mkResult msg st) /\
       (shouldUseStandardLogic cfg w = true ->
          (Restrictive content -> st = bad) /\ (~ Restrictive content -> st = ok)) /\
       (shouldUseStandardLogic cfg w = false ->
          (Restrictive content -> st = ok) /\ (~ Restrictive content -> st = bad)))
  /\ Restrictive "noindex"
  /\ ~ Restrictive "index, follow".
Proof.
  split; [| split].
  - intros cfg w content H. eexists _, _. split.
    + exact (checkMetaTag_content cfg w content H).
    + split; intros ->; split; intros R;
        (apply isRestrictive_iff in R || apply isRestrictive_false_iff in R);
        now rewrite R.
  - now apply isRestrictive_iff.
  - now apply isRestrictive_false_iff.
Qed.

Lemma meta_verdict_mapping_witness :
  metaTag (Sample.pageWithMeta "get-honey.ai" "/" "noindex") = Some (Some "noindex") /\
  exists msg st,
    checkMetaTag Sample.config (Sample.pageWithMeta "get-honey.ai" "/" "noindex")
      = Normal (mkResult msg st) /\
    (shouldUseStandardLogic Sample.config (Sample.pageWithMeta "get-honey.ai" "/" "noindex") = true ->
       (Restrictive "noindex" -> st = bad) /\ (~ Restrictive "noindex" -> st = ok)) /\
    (shouldUseStandardLogic Sample.config (Sample.pageWithMeta "get-honey.ai" "/" "noindex") = false ->
       (Restrictive "noindex" -> st = ok) /\ (~ Restrictive "noindex" -> st = bad)).
Proof.
  split; [reflexivity |].
  apply (proj1 meta_verdict_mapping Sample.config
           (Sample.pageWithMeta "get-honey.ai" "/" "noindex") "noindex").
  reflexivity.
Defined.

(** The four cells of the table on the worked values. *)
Example meta_verdict_mapping_cells :
  checkMetaTag Sample.config (Sample.pageWithMeta "get-honey.ai" "/" "index, follow")
    = Normal (mkResult ("Meta: content=" ++ JS.DQUOTE ++ "index, follow" ++ JS.DQUOTE) ok) /\
  checkMetaTag Sample.config (Sample.pageWithMeta "get-honey.ai" "/" "noindex")
    = Normal (mkResult ("Meta: content=" ++ JS.DQUOTE ++ "noindex" ++ JS.DQUOTE) bad) /\
  checkMetaTag Sample.config (Sample.pageWithMeta "example.org" "/" "index, follow")
    = Normal (mkResult ("Meta: content=" ++ JS.DQUOTE ++ "index, follow" ++ JS.DQUOTE) bad) /\
  checkMetaTag Sample.config (Sample.pageWithMeta "example.org" "/" "NoIndex")
    = Normal (mkResult ("Meta: content=" ++ JS.DQUOTE ++ "NoIndex" ++ JS.DQUOTE) ok).
Proof. repeat split; reflexivity. Qed.

(** C9: the meta check answers a result when the tag is absent or its
    content is a string, and throws when the tag is present without a
    content attribute. *)
Theorem meta_check_totality (cfg : Config) (w : World) :
  ((metaTag w = None \/ exists content, metaTag w = Some (Some content)) ->
     exists r, checkMetaTag cfg w = Normal r) /\
  (metaTag w = Some None -> checkMetaTag cfg w = Throw TypeError).
Proof.
  split.
  - intros [H | [content H]].
    + eexists. now apply checkMetaTag_absent.
    + eexists. exact (checkMetaTag_content cfg w content H).
  - apply checkMetaTag_null.
Qed.

Lemma meta_check_totality_witness :
  (metaTag Sample.otherSite = None /\
   exists r, checkMetaTag Sample.config Sample.otherSite = Normal r) /\
  (metaTag Sample.metaWithoutContent = Some None /\
   checkMetaTag Sample.config Sample.metaWithoutContent = Throw TypeError).
Proof.
  split; (split; [reflexivity |]).
  - apply (proj1 (meta_check_totality Sample.config Sample.otherSite)).
    left; reflexivity.
  - apply (proj2 (meta_check_totality Sample.config Sample.metaWithoutContent)).
    reflexivity.
Defined.

(** C5: an absent meta tag is NOT_FOUND whatever the polarity; an absent
    header on a successful request is OK under standard and BAD under
    inverted polarity, never NOT_FOUND. *)
Theorem absence_asymmetry (cfg : Config) (w : World) :
  (metaTag w = None ->
     checkMetaTag cfg w = Normal (mkResult "Meta: tag not found" not_found)) /\
  (forall response,
     GM_xmlhttpRequest w HEAD (location_href w) = onload response ->
     Regex.xRobotsTagMatch (responseHeaders response) = None ->
     status (checkHeaderTag cfg w)
       = (if shouldUseStandardLogic cfg w then ok else bad) /\
     status (checkHeaderTag cfg w) <> not_found).
Proof.
  split.
  - apply checkMetaTag_absent.
  - intros response H M. rewrite (checkHeaderTag_absent cfg w response H M).
    cbn [status]. split; [reflexivity |].
    destruct (shouldUseStandardLogic cfg w); discriminate.
Qed.

Lemma absence_asymmetry_witness :
  (metaTag Sample.homePage = None /\
   checkMetaTag Sample.config Sample.homePage
     = Normal (mkResult "Meta: tag not found" not_found)) /\
  (GM_xmlhttpRequest Sample.otherSite HEAD (location_href Sample.otherSite)
     = onload Sample.plainHeaders /\
   Regex.xRobotsTagMatch (responseHeaders Sample.plainHeaders) = None /\
   status (checkHeaderTag Sample.config Sample.otherSite)
     = (if shouldUseStandardLogic Sample.config Sample.otherSite then ok else bad) /\
   status (checkHeaderTag Sample.config Sample.otherSite) <> not_found).
Proof.
  split.
  - split; [reflexivity |].
    apply (proj1 (absence_asymmetry Sample.config Sample.homePage)). reflexivity.
  - split; [reflexivity | split; [reflexivity |]].
    apply (proj2 (absence_asymmetry Sample.config Sample.otherSite)
             Sample.plainHeaders); reflexivity.
Defined.

(** Both polarities occur for an absent header. *)
Example absent_header_both_polarities :
  checkHeaderTag Sample.config Sample.homePage = mkResult "Header: not found" ok /\
  checkHeaderTag Sample.config Sample.otherSite = mkResult "Header: not found" bad.
Proof. split; reflexivity. Qed.

(** C4 (as amended): on a successful request without the header, the header
    verdict is OK under standard polarity and BAD under inverted polarity. *)
Theorem missing_header_verdict (cfg : Config) (w : World) (response : Response) :
  GM_xmlhttpRequest w HEAD (location_href w) = onload response ->
  Regex.xRobotsTagMatch (responseHeaders response) = None ->
  (shouldUseStandardLogic cfg w = true -> status (checkHeaderTag cfg w) = ok) /\
  (shouldUseStandardLogic cfg w = false -> status (checkHeaderTag cfg w) = bad).
Proof.
  intros H M. rewrite (checkHeaderTag_absent cfg w response H M).
  split; intros ->; reflexivity.
Qed.

Lemma missing_header_verdict_witness :
  GM_xmlhttpRequest Sample.homePage HEAD (location_href Sample.homePage)
    = onload Sample.plainHeaders /\
  Regex.xRobotsTagMatch (responseHeaders Sample.plainHeaders) = None /\
  shouldUseStandardLogic Sample.config Sample.homePage = true /\
  status (checkHeaderTag Sample.config Sample.homePage) = ok.
Proof.
  split; [reflexivity | split; [reflexivity | split; [reflexivity |]]].
  apply (proj1 (missing_header_verdict Sample.config Sample.homePage
                  Sample.plainHeaders eq_refl eq_refl)).
  reflexivity.
Defined.

(** C4 (as stated) fails: on a page of another site the missing header is
    reported BAD. *)
Lemma missing_header_is_bad_when_inverted :
  GM_xmlhttpRequest Sample.otherSite HEAD (location_href Sample.otherSite)
    = onload Sample.plainHeaders /\
  Regex.xRobotsTagMatch (responseHeaders Sample.plainHeaders) = None /\
  status (checkHeaderTag Sample.config Sample.otherSite) = bad.
Proof. repeat split. Qed.

(** ** The orchestrator (C1, C2, C3) *)

Lemma arrayIncludes_iff (xs : list string) (x : string) :
  JS.arrayIncludes xs x = true <-> In x xs.
Proof.
  unfold JS.arrayIncludes. rewrite existsb_exists. split.
  - intros (y & H & E). apply String.eqb_eq in E. now subst.
  - intros H. exists x. split; [exact H | apply String.eqb_refl].
Qed.

Lemma bind_fst {A B : Type} (c : Completion A) (b : B) :
  (r <- (a <- c ;; Normal (a, b)) ;; Normal (fst r)) = c.
Proof. now destruct c. Qed.

Section Orchestrator.

Variable cfg : Config.
Variable w : World.

(** The left panel, read off [runChecks]. *)
Lemma leftPanel_eq :
  leftPanel cfg w =
  if isFunnel cfg w then
    match status (checkRobotsTxtForPath cfg w (getNormalizedPathname w)) with
    | ok => Normal (checkRobotsTxtForPath cfg w (getNormalizedPathname w))
    | _ => checkMetaTag cfg w
    end
  else checkMetaTag cfg w.
Proof. unfold leftPanel, runChecks. cbv zeta. apply bind_fst. Qed.

(** On a funnel page every robots.txt result other than OK is replaced by
    the meta check. *)
Lemma funnel_fallback :
  isFunnel cfg w = true ->
  status (checkRobotsTxtForPath cfg w (getNormalizedPathname w)) <> ok ->
  leftPanel cfg w = checkMetaTag cfg w.
Proof.
  intros F S. rewrite leftPanel_eq, F.
  destruct (status _); [contradiction | reflexivity | reflexivity].
Qed.

Lemma funnel_is_inverted :
  isFunnel cfg w = true -> shouldUseStandardLogic cfg w = false.
Proof.
  unfold isFunnel, shouldUseStandardLogic. cbv zeta.
  intros F. apply andb_true_iff in F as [-> ->]. reflexivity.
Qed.

Lemma isFunnel_iff :
  isFunnel cfg w = true <->
  location_hostname w = "get-honey.ai" /\
  In (getNormalizedPathname w) (funnelPaths cfg).
Proof.
  unfold isFunnel. now rewrite andb_true_iff, String.eqb_eq, arrayIncludes_iff.
Qed.

Lemma robots_error_not_found :
  GM_xmlhttpRequest w GET (robotsTxtUrl cfg) = onerror ->
  forall path,
    checkRobotsTxtForPath cfg w path = mkResult "robots.txt: Fetch Error" not_found.
Proof. intros H path. unfold checkRobotsTxtForPath. now rewrite H. Qed.

Lemma robots_not_disallowed (response : Response) (path : string) :
  GM_xmlhttpRequest w GET (robotsTxtUrl cfg) = onload response ->
  isDisallowed (responseText response) path = false ->
  checkRobotsTxtForPath cfg w path = mkResult "robots.txt: NOT Disallowed" bad.
Proof. intros H D. unfold checkRobotsTxtForPath. now rewrite H, D. Qed.

End Orchestrator.

(** C1 (as amended): on a funnel page whose robots.txt check is BAD the
    left panel is the meta check, under the inverted polarity of a funnel
    page: an absent tag is NOT_FOUND, a restrictive content OK and any
    other content BAD. *)
Theorem funnel_fallback_is_inverted (cfg : Config) (w : World) :
  isFunnel cfg w = true ->
  status (checkRobotsTxtForPath cfg w (getNormalizedPathname w)) = bad ->
  leftPanel cfg w = checkMetaTag cfg w /\
  shouldUseStandardLogic cfg w = false /\
  (metaTag w = None ->
     leftPanel cfg w = Normal (mkResult "Meta: tag not found" not_found)) /\
  (forall content, metaTag w = Some (Some content) ->
     leftPanel cfg w =
     Normal (mkResult ("Meta: content=" ++ JS.DQUOTE ++ content ++ JS.DQUOTE)
               (if isRestrictive content then ok else bad))).
Proof.
  intros F S.
  assert (L : leftPanel cfg w = checkMetaTag cfg w).
  { apply funnel_fallback; [exact F | rewrite S; discriminate]. }
  pose proof (funnel_is_inverted cfg w F) as P.
  split; [exact L | split; [exact P | split]].
  - intros H. rewrite L. now apply checkMetaTag_absent.
  - intros content H. rewrite L, (checkMetaTag_content cfg w content H), P.
    reflexivity.
Qed.

Lemma funnel_fallback_is_inverted_witness :
  isFunnel Sample.config Sample.funnelNoindex = true /\
  status (checkRobotsTxtForPath Sample.config Sample.funnelNoindex
            (getNormalizedPathname Sample.funnelNoindex)) = bad /\
  leftPanel Sample.config Sample.funnelNoindex
    = checkMetaTag Sample.config Sample.funnelNoindex /\
  shouldUseStandardLogic Sample.config Sample.funnelNoindex = false.
Proof.
  split; [reflexivity | split; [reflexivity |]].
  pose proof (funnel_fallback_is_inverted Sample.config Sample.funnelNoindex
                eq_refl eq_refl) as (L & P & _).
  exact (conj L P).
Defined.

(** C1 (as stated) fails: on the funnel [/f], which robots.txt does not
    disallow, the content [noindex] is reported OK, while the meta check of
    the same page taken as an ordinary page reports BAD. *)
Lemma funnel_fallback_is_not_standard :
  isFunnel Sample.config Sample.funnelNoindex = true /\
  status (checkRobotsTxtForPath Sample.config Sample.funnelNoindex
            (getNormalizedPathname Sample.funnelNoindex)) = bad /\
  shouldUseStandardLogic (asOrdinary Sample.config) Sample.funnelNoindex = true /\
  checkMetaTag (asOrdinary Sample.config) Sample.funnelNoindex
    = Normal (mkResult ("Meta: content=" ++ JS.DQUOTE ++ "noindex" ++ JS.DQUOTE) bad) /\
  leftPanel Sample.config Sample.funnelNoindex
    = Normal (mkResult ("Meta: content=" ++ JS.DQUOTE ++ "noindex" ++ JS.DQUOTE) ok) /\
  leftPanel Sample.config Sample.funnelNoindex
    <> checkMetaTag (asOrdinary Sample.config) Sample.funnelNoindex.
Proof. repeat split. discriminate. Qed.

(** C2: on a funnel page whose fetched robots.txt does not disallow the
    path and whose meta content is [noindex, nofollow], the robots.txt
    check is BAD, the left panel is the meta check, and its status is OK. *)
Theorem funnel_noindex_nofollow_is_ok
    (cfg : Config) (w : World) (response : Response) :
  location_hostname w = "get-honey.ai" ->
  In (getNormalizedPathname w) (funnelPaths cfg) ->
  GM_xmlhttpRequest w GET (robotsTxtUrl cfg) = onload response ->
  isDisallowed (responseText response) (getNormalizedPathname w) = false ->
  metaTag w = Some (Some "noindex, nofollow") ->
  status (checkRobotsTxtForPath cfg w (getNormalizedPathname w)) = bad /\
  leftPanel cfg w = checkMetaTag cfg w /\
  leftPanel cfg w =
  Normal (mkResult ("Meta: content=" ++ JS.DQUOTE ++ "noindex, nofollow" ++ JS.DQUOTE) ok).
Proof.
  intros Hh Hp Hx Hd Hm.
  assert (F : isFunnel cfg w = true) by now apply isFunnel_iff.
  assert (S : status (checkRobotsTxtForPath cfg w (getNormalizedPathname w)) = bad)
    by now rewrite (robots_not_disallowed cfg w response _ Hx Hd).
  assert (L : leftPanel cfg w = checkMetaTag cfg w).
  { apply funnel_fallback; [exact F | rewrite S; discriminate]. }
  split; [exact S | split; [exact L |]].
  rewrite L, (checkMetaTag_content cfg w _ Hm), (funnel_is_inverted cfg w F).
  reflexivity.
Qed.

Lemma funnel_noindex_nofollow_is_ok_witness :
  status (checkRobotsTxtForPath Sample.config Sample.funnelNoindexNofollow
            (getNormalizedPathname Sample.funnelNoindexNofollow)) = bad /\
  leftPanel Sample.config Sample.funnelNoindexNofollow
    = checkMetaTag Sample.config Sample.funnelNoindexNofollow /\
  leftPanel Sample.config Sample.funnelNoindexNofollow =
  Normal (mkResult ("Meta: content=" ++ JS.DQUOTE ++ "noindex, nofollow" ++ JS.DQUOTE) ok).
Proof.
  apply (funnel_noindex_nofollow_is_ok Sample.config Sample.funnelNoindexNofollow
           (mkResponse Sample.robotsTxt "")).
  - reflexivity.
  - simpl. left. reflexivity.
  - reflexivity.
  - reflexivity.
  - reflexivity.
Defined.

(** On a funnel page whose robots.txt request fails, the left panel is the
    meta check as well. *)
Lemma fetch_error_falls_back (cfg : Config) (w : World) :
  isFunnel cfg w = true ->
  GM_xmlhttpRequest w GET (robotsTxtUrl cfg) = onerror ->
  leftPanel cfg w = checkMetaTag cfg w.
Proof.
  intros F E. apply funnel_fallback; [exact F |].
  rewrite (robots_error_not_found cfg w E). discriminate.
Qed.

(** C3 (the code at the failing input): the robots.txt request of the
    funnel [/f] fails, the robots.txt check answers NOT_FOUND, and the left
    panel shows the meta check with status OK. *)
Theorem fetch_error_verdict_is_replaced :
  isFunnel Sample.config Sample.funnelFetchError = true /\
  GM_xmlhttpRequest Sample.funnelFetchError GET (robotsTxtUrl Sample.config)
    = onerror /\
  checkRobotsTxtForPath Sample.config Sample.funnelFetchError
    (getNormalizedPathname Sample.funnelFetchError)
    = mkResult "robots.txt: Fetch Error" not_found /\
  leftPanel Sample.config Sample.funnelFetchError
    = Normal (mkResult ("Meta: content=" ++ JS.DQUOTE ++ "noindex" ++ JS.DQUOTE) ok).
Proof. repeat split. Qed.

(** * Further properties of the script *)

(** ** The path normalizer and the page classification *)

Lemma normalizePathname_slash (q : string) :
  q <> "" -> normalizePathname (q ++ "/") = q.
Proof.
  intros N. unfold normalizePathname.
  rewrite endsWith_append, andb_true_r, length_app. cbn [String.length].
  destruct q as [|c q]; [contradiction |].
  replace (1 <? String.length (String c q) + 1) with true
    by (symmetry; apply Nat.ltb_lt; simpl; lia).
  apply slice_drop_last.
Qed.

Lemma normalizePathname_no_slash (q : string) :
  JS.endsWith q "/" = false -> normalizePathname q = q.
Proof. intros H. unfold normalizePathname. now rewrite H, andb_false_r. Qed.

(** A page and the same page with a trailing slash are classified alike:
    the normalized path, the funnel test and the polarity agree. *)
Theorem trailing_slash_same_classification
    (cfg : Config) (w : World) (q : string) :
  q <> "" -> JS.endsWith q "/" = false ->
  getNormalizedPathname (atPathname w (q ++ "/")) = q /\
  getNormalizedPathname (atPathname w q) = q /\
  isFunnel cfg (atPathname w (q ++ "/")) = isFunnel cfg (atPathname w q) /\
  shouldUseStandardLogic cfg (atPathname w (q ++ "/"))
    = shouldUseStandardLogic cfg (atPathname w q).
Proof.
  intros N E.
  assert (A : getNormalizedPathname (atPathname w (q ++ "/")) = q)
    by (rewrite normalizeAt_eq; now apply normalizePathname_slash).
  assert (B : getNormalizedPathname (atPathname w q) = q)
    by (rewrite normalizeAt_eq; now apply normalizePathname_no_slash).
  repeat split; [exact A | exact B | |].
  - unfold isFunnel. now rewrite A, B.
  - unfold shouldUseStandardLogic. cbv zeta. now rewrite A, B.
Qed.

Lemma trailing_slash_same_classification_witness :
  isFunnel Sample.config (atPathname Sample.homePage "/quiz/")
  = isFunnel Sample.config (atPathname Sample.homePage "/quiz").
Proof.
  apply (trailing_slash_same_classification Sample.config Sample.homePage "/quiz").
  - discriminate.
  - reflexivity.
Defined.

Lemma normalized_ends_in_slash_iff (w : World) (q : string) :
  q <> "" ->
  (getNormalizedPathname w = q ++ "/" <-> location_pathname w = q ++ "//").
Proof.
  intros N. rewrite getNormalizedPathname_eq.
  replace (q ++ "//") with ((q ++ "/") ++ "/") by now rewrite app_assoc.
  split.
  - intros H.
    destruct (normalizePathname_cases (location_pathname w))
      as [[E F] | (r & P & L & E)].
    + exfalso. rewrite H in E. rewrite <- E in F.
      rewrite endsWith_append, andb_true_r in F.
      apply Nat.ltb_ge in F. rewrite length_app in F. cbn in F.
      destruct q; [contradiction | simpl in F; lia].
    + rewrite P. rewrite E in H. now rewrite H.
  - intros ->. apply normalizePathname_slash.
    destruct q; [contradiction | discriminate].
Qed.

(** A registry entry written with a trailing slash makes a funnel of one
    page only, the page of the primary host whose path is the entry
    followed by one more slash; the page at the entry itself is not a
    funnel. *)
Theorem registry_entry_with_slash (url : string) (w : World) (q : string) :
  q <> "" ->
  (isFunnel (mkConfig [q ++ "/"] url) w = true <->
   location_hostname w = "get-honey.ai" /\ location_pathname w = q ++ "//").
Proof.
  intros N. rewrite isFunnel_iff. cbn [funnelPaths In].
  rewrite <- (normalized_ends_in_slash_iff w q N).
  split; intros [H P]; (split; [exact H |]).
  - destruct P as [P | []]. now symmetry.
  - left. now symmetry.
Qed.

Lemma registry_entry_with_slash_witness :
  isFunnel (mkConfig ["/f" ++ "/"] "") (atPathname Sample.homePage "/f/") = false /\
  (isFunnel (mkConfig ["/f" ++ "/"] "") (atPathname Sample.homePage "/f//") = true <->
   location_hostname (atPathname Sample.homePage "/f//") = "get-honey.ai" /\
   location_pathname (atPathname Sample.homePage "/f//") = "/f" ++ "//").
Proof.
  split; [reflexivity |].
  apply (registry_entry_with_slash "" (atPathname Sample.homePage "/f//") "/f").
  discriminate.
Defined.

(** ** The rules of a robots.txt document *)

Lemma split_nonempty (s : string) (sep : ascii) : JS.split s sep <> [].
Proof.
  destruct s as [|c s]; simpl; [discriminate |].
  destruct (Ascii.eqb c sep); [discriminate |].
  destruct (JS.split s sep); discriminate.
Qed.

Lemma split_app (a b : string) (sep : ascii) :
  JS.split (a ++ String sep b) sep = (JS.split a sep ++ JS.split b sep)%list.
Proof.
  induction a as [|c a IH]; simpl.
  - now rewrite Ascii.eqb_refl.
  - destruct (Ascii.eqb c sep); [now rewrite IH |].
    rewrite IH. pose proof (split_nonempty a sep) as N.
    destruct (JS.split a sep); [contradiction | reflexivity].
Qed.

Lemma disallowedPaths_app (a b : string) :
  disallowedPaths (a ++ String JS.LF b)
  = (disallowedPaths a ++ disallowedPaths b)%list.
Proof.
  unfold disallowedPaths. now rewrite split_app, map_app, filter_app, map_app.
Qed.

(** The rules of two documents joined by a line break are the rules of
    both: a path is disallowed by the joined document exactly when one of
    the two disallows it, in whatever order they are joined. *)
Theorem rules_of_joined_documents (a b path : string) :
  disallowedPaths (a ++ String JS.LF b)
    = (disallowedPaths a ++ disallowedPaths b)%list /\
  isDisallowed (a ++ String JS.LF b) path
    = isDisallowed a path || isDisallowed b path /\
  isDisallowed (a ++ String JS.LF b) path
    = isDisallowed (b ++ String JS.LF a) path.
Proof.
  unfold isDisallowed. rewrite !disallowedPaths_app, !existsb_app.
  repeat split. apply orb_comm.
Qed.

(** A document that disallows a path disallows every path below it. *)
Theorem disallowed_below (doc path rest : string) :
  isDisallowed doc path = true ->
  isDisallowed doc (path ++ "/" ++ rest) = true.
Proof.
  unfold isDisallowed. rewrite !existsb_exists.
  intros (rule & H & M). exists rule. split; [exact H |].
  apply disallows_iff in M as [N M]. apply disallows_iff. split; [exact N |].
  right. destruct M as [-> | [r ->]].
  - now exists rest.
  - exists (r ++ "/" ++ rest). now rewrite !app_assoc.
Qed.

Lemma disallowed_below_witness :
  isDisallowed Sample.robotsTxt "/b" = true /\
  isDisallowed Sample.robotsTxt ("/b" ++ "/" ++ "step/2") = true.
Proof.
  split; [reflexivity |].
  apply (disallowed_below Sample.robotsTxt "/b" "step/2"). reflexivity.
Defined.

(** The two degenerate rules: the rule without a path matches no path, and
    the rule [/] matches the root path and the paths that begin with two
    slashes, no other. *)
Theorem degenerate_rules (path : string) :
  disallows path "" = false /\
  (disallows path "/" = true <->
   path = "/" \/ exists rest, path = "//" ++ rest).
Proof.
  split; [reflexivity |].
  rewrite disallows_iff. change (normalizePathname "/") with "/". split.
  - intros [_ H]. exact H.
  - intros H. split; [discriminate | exact H].
Qed.

(** *** White space around the lines *)

Lemma trimStart_whitespace (t : string) :
  EveryChar WhiteSpaceChar t -> JS.trimStart t = "".
Proof.
  induction t as [|c t IH]; simpl; [reflexivity |].
  intros [H1 H2]. unfold WhiteSpaceChar in H1. rewrite H1. now apply IH.
Qed.

Lemma trimEnd_whitespace (t : string) :
  EveryChar WhiteSpaceChar t -> JS.trimEnd t = "".
Proof.
  induction t as [|c t IH]; simpl; [reflexivity |].
  intros [H1 H2]. unfold WhiteSpaceChar in H1. now rewrite (IH H2), H1.
Qed.

Lemma trimEnd_app_whitespace (s t : string) :
  EveryChar WhiteSpaceChar t -> JS.trimEnd (s ++ t) = JS.trimEnd s.
Proof.
  intros H. induction s as [|c s IH]; simpl.
  - now apply trimEnd_whitespace.
  - now rewrite IH.
Qed.

Lemma trimStart_app (s t : string) :
  JS.trimStart (s ++ t) =
  match JS.trimStart s with
  | EmptyString => JS.trimStart t
  | u => u ++ t
  end.
Proof.
  induction s as [|c s IH]; simpl.
  - destruct (JS.trimStart t); reflexivity.
  - destruct (JS.isWhiteSpace c); [exact IH | reflexivity].
Qed.

Lemma trim_app_whitespace (s t : string) :
  EveryChar WhiteSpaceChar t -> JS.trim (s ++ t) = JS.trim s.
Proof.
  intros H. unfold JS.trim. rewrite trimStart_app.
  destruct (JS.trimStart s) as [|c u].
  - now rewrite (trimStart_whitespace t H).
  - now apply trimEnd_app_whitespace.
Qed.

Lemma split_app_char (a : string) (c sep : ascii) :
  Ascii.eqb c sep = false ->
  JS.split (a ++ String c "") sep
  = (removelast (JS.split a sep)
     ++ [(last (JS.split a sep) "" ++ String c "")%string])%list.
Proof.
  intros N. induction a as [|d a IH]; simpl.
  - now rewrite N.
  - pose proof (split_nonempty a sep) as E. rewrite IH.
    destruct (Ascii.eqb d sep).
    + destruct (JS.split a sep) as [|p ps]; [contradiction | reflexivity].
    + destruct (JS.split a sep) as [|p [|p' ps]]; [contradiction | | ];
        reflexivity.
Qed.

Lemma lines_app_whitespace_char (a : string) (c : ascii) :
  WhiteSpaceChar c ->
  map (fun line => JS.toLowerCase (JS.trim line)) (JS.split (a ++ String c "") JS.LF)
  = map (fun line => JS.toLowerCase (JS.trim line)) (JS.split a JS.LF)
    \/ Ascii.eqb c JS.LF = true.
Proof.
  intros W. destruct (Ascii.eqb c JS.LF) eqn:N; [now right | left].
  rewrite (split_app_char a c JS.LF N).
  pose proof (split_nonempty a JS.LF) as E.
  rewrite (app_removelast_last "" E) at 3.
  rewrite !map_app. cbn [map].
  rewrite trim_app_whitespace; [reflexivity | now split].
Qed.

Lemma disallowedPaths_app_whitespace_char (a : string) (c : ascii) :
  WhiteSpaceChar c -> disallowedPaths (a ++ String c "") = disallowedPaths a.
Proof.
  intros W. destruct (lines_app_whitespace_char a c W) as [E | N].
  - unfold disallowedPaths. now rewrite E.
  - apply Ascii.eqb_eq in N. subst c. rewrite disallowedPaths_app.
    apply List.app_nil_r.
Qed.

Lemma disallowedPaths_app_whitespace (a t : string) :
  EveryChar WhiteSpaceChar t -> disallowedPaths (a ++ t) = disallowedPaths a.
Proof.
  revert a. induction t as [|c t IH]; intros a H.
  - now rewrite app_empty_r.
  - destruct H as [H1 H2].
    change (String c t) with (String c "" ++ t). rewrite <- app_assoc.
    rewrite (IH _ H2). now apply disallowedPaths_app_whitespace_char.
Qed.

Lemma disallowedPaths_whitespace_app (t a : string) :
  EveryChar WhiteSpaceChar t -> disallowedPaths (t ++ a) = disallowedPaths a.
Proof.
  induction t as [|c t IH]; intros H; [reflexivity |].
  destruct H as [H1 H2]. rewrite <- (IH H2). cbn [String.append].
  unfold disallowedPaths. cbn [JS.split].
  destruct (Ascii.eqb c JS.LF); [reflexivity |].
  pose proof (split_nonempty (t ++ a) JS.LF) as E.
  destruct (JS.split (t ++ a) JS.LF) as [|p ps]; [contradiction |].
  assert (T : JS.trim (String c p) = JS.trim p).
  { unfold JS.trim, WhiteSpaceChar in *. cbn [JS.trimStart]. now rewrite H1. }
  cbn [map]. now rewrite T.
Qed.

(** White space before a document, after it, or before one of its line
    breaks (the carriage return of a CRLF line end, say) does not change
    the rules. *)
Theorem rules_ignore_outer_whitespace (a b t : string) :
  EveryChar WhiteSpaceChar t ->
  disallowedPaths (t ++ a) = disallowedPaths a /\
  disallowedPaths (a ++ t) = disallowedPaths a /\
  disallowedPaths (a ++ t ++ String JS.LF b)
    = disallowedPaths (a ++ String JS.LF b).
Proof.
  intros H. split; [| split].
  - now apply disallowedPaths_whitespace_app.
  - now apply disallowedPaths_app_whitespace.
  - rewrite <- app_assoc, !disallowedPaths_app.
    now rewrite disallowedPaths_app_whitespace.
Qed.

Lemma rules_ignore_outer_whitespace_witness :
  disallowedPaths ("Disallow: /a" ++ String CR "" ++ String JS.LF "Disallow: /b/")
  = disallowedPaths ("Disallow: /a" ++ String JS.LF "Disallow: /b/").
Proof.
  apply (rules_ignore_outer_whitespace "Disallow: /a" "Disallow: /b/" (String CR "")).
  split; [reflexivity | exact I].
Defined.

(** ** The header pattern *)

Lemma token_folds : EveryChar FoldsLikeLower "x-robots-tag:".
Proof.
  cbn [EveryChar]. repeat split; intros b;
    destruct b as [[] [] [] [] [] [] [] []]; reflexivity.
Qed.

Lemma literalIgnoreCase_startsWith (pat s : string) :
  EveryChar FoldsLikeLower pat ->
  match Regex.literalIgnoreCase pat s with
  | Some _ => true
  | None => false
  end = JS.startsWith (JS.toLowerCase s) pat.
Proof.
  revert s. induction pat as [|a pat IH]; intros s F; [reflexivity |].
  destruct F as [Fa F]. destruct s as [|b s]; [reflexivity |].
  cbn [Regex.literalIgnoreCase JS.toLowerCase JS.startsWith].
  rewrite (Fa b), (Ascii.eqb_sym a).
  destruct (Ascii.eqb (JS.toLowerCaseChar b) a); [now apply IH | reflexivity].
Qed.

Lemma literalIgnoreCase_iff (pat s r : string) :
  EveryChar FoldsLikeLower pat ->
  (Regex.literalIgnoreCase pat s = Some r <->
   exists name, s = name ++ r /\ JS.toLowerCase name = pat).
Proof.
  revert s. induction pat as [|a pat IH]; intros s F.
  - cbn [Regex.literalIgnoreCase]. split.
    + intros H. injection H as ->. now exists "".
    + intros ([|c name] & -> & H); [reflexivity | discriminate].
  - destruct F as [Fa F]. destruct s as [|b s]; cbn [Regex.literalIgnoreCase].
    + split; [discriminate |].
      intros ([|c name] & E & H); discriminate.
    + rewrite (Fa b). destruct (Ascii.eqb_spec (JS.toLowerCaseChar b) a) as [E | N].
      * rewrite (IH s F). split.
        -- intros (name & -> & <-). exists (String b name). simpl. now rewrite E.
        -- intros ([|c name] & E1 & E2); [discriminate |].
           simpl in E1, E2. injection E1 as <- ->. injection E2 as _ E2.
           now exists name.
      * split; [discriminate |].
        intros ([|c name] & E1 & E2); [discriminate |].
        simpl in E1, E2. injection E1 as <- ->. injection E2 as E2 _.
        contradiction.
Qed.

Section Star.

Variable class : ascii -> bool.

Lemma star_spec (s run rest : string) :
  Regex.star class s = (run, rest) ->
  s = run ++ rest /\
  EveryChar (fun c => class c = true) run /\
  HeadChar (fun c => class c = false) rest.
Proof.
  revert run rest. induction s as [|c s IH]; intros run rest H; simpl in H.
  - injection H as <- <-. now repeat split.
  - destruct (class c) eqn:E.
    + destruct (Regex.star class s) as [run' rest'] eqn:S.
      injection H as <- <-. destruct (IH _ _ eq_refl) as (-> & A & B).
      now repeat split.
    + injection H as <- <-. now repeat split.
Qed.

Lemma star_complete (run rest : string) :
  EveryChar (fun c => class c = true) run ->
  HeadChar (fun c => class c = false) rest ->
  Regex.star class (run ++ rest) = (run, rest).
Proof.
  intros A B. induction run as [|c run IH].
  - destruct rest as [|d rest]; [reflexivity |]. simpl in *. now rewrite B.
  - destruct A as [A1 A2]. simpl. now rewrite A1, (IH A2).
Qed.

End Star.

Lemma xRobotsTagAt_startsWith (s : string) :
  match Regex.xRobotsTagAt s with
  | Some _ => true
  | None => false
  end = JS.startsWith (JS.toLowerCase s) "x-robots-tag:".
Proof.
  rewrite <- (literalIgnoreCase_startsWith _ s token_folds).
  unfold Regex.xRobotsTagAt.
  destruct (Regex.literalIgnoreCase "x-robots-tag:" s) as [r |]; [| reflexivity].
  destruct (Regex.star JS.isWhiteSpace r) as [ws r'].
  now destruct (Regex.star Regex.dot r').
Qed.

Lemma xRobotsTagMatch_at (s g : string) :
  Regex.xRobotsTagAt s = Some g -> Regex.xRobotsTagMatch s = Some g.
Proof. intros H. destruct s; cbn [Regex.xRobotsTagMatch]; now rewrite H. Qed.

Lemma xRobotsTagMatch_skip (c : ascii) (s : string) :
  Regex.xRobotsTagAt (String c s) = None ->
  Regex.xRobotsTagMatch (String c s) = Regex.xRobotsTagMatch s.
Proof. intros H. cbn [Regex.xRobotsTagMatch]. now rewrite H. Qed.

Lemma xRobotsTagMatch_includes (s : string) :
  match Regex.xRobotsTagMatch s with
  | Some _ => true
  | None => false
  end = JS.includes (JS.toLowerCase s) "x-robots-tag:".
Proof.
  induction s as [|c s IH]; [reflexivity |].
  cbn [JS.toLowerCase JS.includes].
  change (String (JS.toLowerCaseChar c) (JS.toLowerCase s))
    with (JS.toLowerCase (String c s)).
  rewrite <- xRobotsTagAt_startsWith, <- IH. cbn [Regex.xRobotsTagMatch].
  now destruct (Regex.xRobotsTagAt (String c s)).
Qed.

Lemma xRobotsTagMatch_none_iff (s : string) :
  Regex.xRobotsTagMatch s = None <-> ~ ContainsIgnoreCase s "x-robots-tag:".
Proof.
  rewrite <- includes_toLowerCase_iff, <- xRobotsTagMatch_includes.
  destruct (Regex.xRobotsTagMatch s); split; congruence.
Qed.

(** On a successful request the header is reported as not found exactly
    when the header block does not contain the name [x-robots-tag:] in any
    letter case, at any place. *)
Theorem header_not_found_iff (cfg : Config) (w : World) (response : Response) :
  GM_xmlhttpRequest w HEAD (location_href w) = onload response ->
  (message (checkHeaderTag cfg w) = "Header: not found" <->
   ~ ContainsIgnoreCase (responseHeaders response) "x-robots-tag:").
Proof.
  intros H. rewrite <- xRobotsTagMatch_none_iff. unfold checkHeaderTag.
  rewrite H. destruct (Regex.xRobotsTagMatch (responseHeaders response));
    cbn [message]; split; (reflexivity || discriminate).
Qed.

Lemma header_not_found_iff_witness :
  message (checkHeaderTag Sample.config Sample.homePage) = "Header: not found" <->
  ~ ContainsIgnoreCase (responseHeaders Sample.plainHeaders) "x-robots-tag:".
Proof.
  apply (header_not_found_iff Sample.config Sample.homePage Sample.plainHeaders).
  reflexivity.
Defined.

(** *** What the capture group holds *)

Lemma xRobotsTagAt_spec (s g : string) :
  Regex.xRobotsTagAt s = Some g <->
  exists name ws rest,
    s = name ++ ws ++ g ++ rest /\
    JS.toLowerCase name = "x-robots-tag:" /\
    EveryChar WhiteSpaceChar ws /\
    EveryChar DotChar g /\
    HeadChar (fun c => JS.isWhiteSpace c = false) (g ++ rest) /\
    HeadChar (fun c => Regex.dot c = false) rest.
Proof.
  unfold Regex.xRobotsTagAt. split.
  - destruct (Regex.literalIgnoreCase "x-robots-tag:" s) as [r |] eqn:L;
      [| discriminate].
    apply (literalIgnoreCase_iff _ _ _ token_folds) in L as (name & -> & N).
    destruct (Regex.star JS.isWhiteSpace r) as [ws r'] eqn:S1.
    destruct (Regex.star Regex.dot r') as [g' rest] eqn:S2.
    intros H. injection H as ->.
    apply star_spec in S1 as (-> & W & Hd1).
    apply star_spec in S2 as (-> & D & Hd2).
    now exists name, ws, rest.
  - intros (name & ws & rest & -> & N & W & D & Hd1 & Hd2).
    assert (L : Regex.literalIgnoreCase "x-robots-tag:" (name ++ ws ++ g ++ rest)
                = Some (ws ++ g ++ rest)).
    { apply (literalIgnoreCase_iff _ _ _ token_folds). now exists name. }
    rewrite L, (star_complete JS.isWhiteSpace ws (g ++ rest) W Hd1).
    now rewrite (star_complete Regex.dot g rest D Hd2).
Qed.

(** Whatever the header check captures stands in the header block after
    an occurrence of the name in any letter case and after the white space
    that follows it, line breaks included; it runs to the end of its line
    and does not begin with white space. *)
Theorem captured_value_sound (s g : string) :
  Regex.xRobotsTagMatch s = Some g ->
  exists pre name ws rest,
    s = pre ++ name ++ ws ++ g ++ rest /\
    JS.toLowerCase name = "x-robots-tag:" /\
    EveryChar WhiteSpaceChar ws /\
    EveryChar DotChar g /\
    HeadChar (fun c => JS.isWhiteSpace c = false) (g ++ rest) /\
    HeadChar (fun c => Regex.dot c = false) rest.
Proof.
  induction s as [|c s IH]; [discriminate |].
  destruct (Regex.xRobotsTagAt (String c s)) as [g' |] eqn:A.
  - rewrite (xRobotsTagMatch_at _ _ A). intros H. injection H as ->.
    apply xRobotsTagAt_spec in A as (name & ws & rest & E & P).
    now exists "", name, ws, rest.
  - rewrite (xRobotsTagMatch_skip _ _ A). intros H.
    destruct (IH H) as (pre & name & ws & rest & -> & P).
    now exists (String c pre), name, ws, rest.
Qed.

Lemma captured_value_sound_witness :
  exists pre name ws rest,
    Demo.noindexHeaders = pre ++ name ++ ws ++ "noindex" ++ rest /\
    JS.toLowerCase name = "x-robots-tag:" /\
    EveryChar WhiteSpaceChar ws /\
    EveryChar DotChar "noindex" /\
    HeadChar (fun c => JS.isWhiteSpace c = false) ("noindex" ++ rest) /\
    HeadChar (fun c => Regex.dot c = false) rest.
Proof.
  apply (captured_value_sound Demo.noindexHeaders "noindex"). reflexivity.
Defined.

Lemma startsWith_app_long (u v p : string) :
  String.length p <= String.length u ->
  JS.startsWith (u ++ v) p = JS.startsWith u p.
Proof.
  revert u. induction p as [|a p IH]; intros u L; [reflexivity |].
  destruct u as [|b u]; simpl in L; [lia |].
  cbn [String.append JS.startsWith]. rewrite IH by lia. reflexivity.
Qed.

Lemma xRobotsTagAt_none_app (u v : string) :
  13 <= String.length u ->
  Regex.xRobotsTagAt u = None -> Regex.xRobotsTagAt (u ++ v) = None.
Proof.
  intros L H.
  pose proof (xRobotsTagAt_startsWith u) as A.
  pose proof (xRobotsTagAt_startsWith (u ++ v)) as B.
  rewrite H in A. rewrite toLowerCase_app, startsWith_app_long, <- A in B.
  - now destruct (Regex.xRobotsTagAt (u ++ v)).
  - now rewrite toLowerCase_length.
Qed.

Lemma match_after_prefix (pre u v g : string) :
  12 <= String.length u ->
  Regex.xRobotsTagMatch (pre ++ u) = None ->
  Regex.xRobotsTagAt (u ++ v) = Some g ->
  Regex.xRobotsTagMatch (pre ++ u ++ v) = Some g.
Proof.
  intros L. induction pre as [|c pre IH]; intros N A.
  - now apply xRobotsTagMatch_at.
  - cbn [String.append] in *.
    destruct (Regex.xRobotsTagAt (String c (pre ++ u))) as [g' |] eqn:E.
    + now rewrite (xRobotsTagMatch_at _ _ E) in N.
    + rewrite (xRobotsTagMatch_skip _ _ E) in N.
      assert (E' : Regex.xRobotsTagAt (String c (pre ++ u ++ v)) = None).
      { rewrite <- app_assoc.
        change (String c ((pre ++ u) ++ v)) with (String c (pre ++ u) ++ v).
        apply xRobotsTagAt_none_app; [| exact E].
        simpl. rewrite length_app. lia. }
      rewrite (xRobotsTagMatch_skip _ _ E'). now apply IH.
Qed.

Lemma firstChars_split (n : nat) (s : string) :
  n <= String.length s ->
  exists t, s = firstChars n s ++ t /\ String.length (firstChars n s) = n.
Proof.
  revert n. induction s as [|c s IH]; intros [|n] L; simpl in L;
    try lia; try (now eexists).
  destruct (IH n) as (t & E & Len); [lia |].
  exists t. unfold firstChars in *. cbn [String.substring String.append String.length].
  now rewrite <- E, Len.
Qed.

(** The value the header check captures: at the first occurrence of the
    name, after all white space (which may run over line breaks), the rest
    of the line. *)
Theorem captured_value_complete (pre name ws g rest : string) :
  JS.toLowerCase name = "x-robots-tag:" ->
  EveryChar WhiteSpaceChar ws ->
  EveryChar DotChar g ->
  HeadChar (fun c => JS.isWhiteSpace c = false) (g ++ rest) ->
  HeadChar (fun c => Regex.dot c = false) rest ->
  Regex.xRobotsTagMatch (pre ++ firstChars 12 name) = None ->
  Regex.xRobotsTagMatch (pre ++ name ++ ws ++ g ++ rest) = Some g.
Proof.
  intros N W D H1 H2 First.
  assert (Len : String.length name = 13).
  { rewrite <- toLowerCase_length, N. reflexivity. }
  destruct (firstChars_split 12 name) as (t & E & L12); [lia |].
  assert (A : Regex.xRobotsTagAt (name ++ ws ++ g ++ rest) = Some g).
  { apply xRobotsTagAt_spec. now exists name, ws, rest. }
  rewrite E in A |- * at 1. rewrite app_assoc in A |- *.
  apply match_after_prefix; [lia | exact First | exact A].
Qed.

(** A header without a value takes the next header line as its value. *)
Lemma captured_value_complete_witness :
  Regex.xRobotsTagMatch
    ("" ++ "x-robots-tag:" ++ String CR (String JS.LF "")
        ++ "content-type: text/html" ++ "")
  = Some "content-type: text/html".
Proof.
  apply (captured_value_complete "" "x-robots-tag:" (String CR (String JS.LF ""))
           "content-type: text/html" "").
  - reflexivity.
  - repeat split.
  - repeat split.
  - reflexivity.
  - exact I.
  - reflexivity.
Defined.

(** ** The header check *)

(** For a header that is present, the value shown is the trimmed capture;
    standard polarity maps a restrictive value to BAD and any other value
    to OK, inverted polarity maps them to OK and BAD. *)
Theorem header_verdict_mapping
    (cfg : Config) (w : World) (response : Response) (g : string) :
  GM_xmlhttpRequest w HEAD (location_href w) = onload response ->
  Regex.xRobotsTagMatch (responseHeaders response) = Some g ->
  exists st,
    checkHeaderTag cfg w = mkResult ("Header: x-robots-tag: " ++ JS.trim g) st /\
    (shouldUseStandardLogic cfg w = true ->
       (Restrictive (JS.trim g) -> st = bad) /\
       (~ Restrictive (JS.trim g) -> st = ok)) /\
    (shouldUseStandardLogic cfg w = false ->
       (Restrictive (JS.trim g) -> st = ok) /\
       (~ Restrictive (JS.trim g) -> st = bad)).
Proof.
  intros H M. unfold checkHeaderTag. rewrite H, M. cbv zeta.
  change (JS.includes (JS.toLowerCase (JS.trim g)) "noindex" ||
          JS.includes (JS.toLowerCase (JS.trim g)) "nofollow")
    with (isRestrictive (JS.trim g)).
  eexists. split; [reflexivity |].
  split; intros ->; split; intros R;
    (apply isRestrictive_iff in R || apply isRestrictive_false_iff in R);
    now rewrite R.
Qed.

Lemma header_verdict_mapping_witness :
  exists st,
    checkHeaderTag Sample.config
      (Demo.pageWithHeaders "get-honey.ai" "/" None Demo.noindexHeaders)
    = mkResult ("Header: x-robots-tag: " ++ JS.trim "noindex") st /\
    (shouldUseStandardLogic Sample.config
       (Demo.pageWithHeaders "get-honey.ai" "/" None Demo.noindexHeaders) = true ->
       (Restrictive (JS.trim "noindex") -> st = bad) /\
       (~ Restrictive (JS.trim "noindex") -> st = ok)) /\
    (shouldUseStandardLogic Sample.config
       (Demo.pageWithHeaders "get-honey.ai" "/" None Demo.noindexHeaders) = false ->
       (Restrictive (JS.trim "noindex") -> st = ok) /\
       (~ Restrictive (JS.trim "noindex") -> st = bad)).
Proof.
  apply (header_verdict_mapping Sample.config
           (Demo.pageWithHeaders "get-honey.ai" "/" None Demo.noindexHeaders)
           (mkResponse "" Demo.noindexHeaders) "noindex");
    reflexivity.
Defined.

(** The end-to-end case of a page of the primary host outside the
    registry, without a meta tag and with the header value [noindex]. *)
Example ordinary_page_with_noindex_header :
  runChecks Sample.config
    (Demo.pageWithHeaders "get-honey.ai" "/" None Demo.noindexHeaders)
  = Normal (mkResult "Meta: tag not found" not_found,
            mkResult "Header: x-robots-tag: noindex" bad).
Proof. reflexivity. Qed.

(** The header verdict is NOT_FOUND exactly when the HEAD request fails. *)
Theorem header_status_not_found_iff (cfg : Config) (w : World) :
  status (checkHeaderTag cfg w) = not_found <->
  GM_xmlhttpRequest w HEAD (location_href w) = onerror.
Proof.
  unfold checkHeaderTag.
  destruct (GM_xmlhttpRequest w HEAD (location_href w)) as [response |].
  - split; [| discriminate].
    destruct (Regex.xRobotsTagMatch (responseHeaders response)); cbn [status];
      destruct (shouldUseStandardLogic cfg w);
      try destruct (_ || _); discriminate.
  - now split.
Qed.

(** ** The run as a whole *)

Lemma robots_ok_iff (cfg : Config) (w : World) (path : string) :
  status (checkRobotsTxtForPath cfg w path) = ok <->
  exists response,
    GM_xmlhttpRequest w GET (robotsTxtUrl cfg) = onload response /\
    isDisallowed (responseText response) path = true.
Proof.
  unfold checkRobotsTxtForPath.
  destruct (GM_xmlhttpRequest w GET (robotsTxtUrl cfg)) as [response |].
  - destruct (isDisallowed (responseText response) path) eqn:D; cbn [status].
    + split; [intros _; now exists response | reflexivity].
    + split; [discriminate |]. intros (r & E & D'). injection E as <-.
      congruence.
  - split; [discriminate | intros (r & E & _); discriminate].
Qed.

Lemma runChecks_eq (cfg : Config) (w : World) :
  runChecks cfg w =
  (l <- (if isFunnel cfg w then
           match status (checkRobotsTxtForPath cfg w (getNormalizedPathname w)) with
           | ok => Normal (checkRobotsTxtForPath cfg w (getNormalizedPathname w))
           | _ => checkMetaTag cfg w
           end
         else checkMetaTag cfg w) ;;
   Normal (l, checkHeaderTag cfg w)).
Proof. reflexivity. Qed.

Lemma checkMetaTag_throws_iff (cfg : Config) (w : World) :
  checkMetaTag cfg w = Throw TypeError <-> metaTag w = Some None.
Proof.
  split; [| apply checkMetaTag_null].
  destruct (metaTag w) as [[content |] |] eqn:M; [| reflexivity |].
  - now rewrite (checkMetaTag_content cfg w content M).
  - now rewrite (checkMetaTag_absent cfg w M).
Qed.

(** A run fails, and shows no banner, exactly when the meta element has no
    content attribute and the meta check is reached: on every page that is
    not a funnel, and on a funnel unless its robots.txt was fetched and
    disallows the path.  Every other run ends with a left result and the
    result of the header check. *)
Theorem run_fails_iff (cfg : Config) (w : World) :
  (runChecks cfg w = Throw TypeError <->
   metaTag w = Some None /\
   (isFunnel cfg w = false \/
    ~ exists response,
        GM_xmlhttpRequest w GET (robotsTxtUrl cfg) = onload response /\
        isDisallowed (responseText response) (getNormalizedPathname w) = true))
  /\ (runChecks cfg w <> Throw TypeError ->
      exists l, runChecks cfg w = Normal (l, checkHeaderTag cfg w)).
Proof.
  rewrite runChecks_eq, <- robots_ok_iff, <- (checkMetaTag_throws_iff cfg w).
  destruct (isFunnel cfg w);
    [destruct (status (checkRobotsTxtForPath cfg w (getNormalizedPathname w))) |];
    try (destruct (checkMetaTag cfg w) as [r | []]); cbn [bind];
    (split; [intuition congruence | intros H; congruence || (eexists; reflexivity)]).
Qed.

(** A funnel that robots.txt disallows is reported even when its meta
    element has no content attribute. *)
Example disallowed_funnel_without_content :
  metaTag Demo.disallowedFunnel = Some None /\
  runChecks Demo.config Demo.disallowedFunnel
  = Normal (mkResult "robots.txt: Disallowed" ok,
            mkResult "Header: Request error" not_found).
Proof. split; reflexivity. Qed.

Lemma run_fails_iff_witness :
  exists l, runChecks Sample.config Sample.homePage
            = Normal (l, checkHeaderTag Sample.config Sample.homePage).
Proof.
  apply (proj2 (run_fails_iff Sample.config Sample.homePage)). discriminate.
Defined.

Lemma funnel_meta_check (cfg : Config) (w : World) :
  isFunnel cfg w = true ->
  checkMetaTag cfg w =
  match metaTag w with
  | None => Normal (mkResult "Meta: tag not found" not_found)
  | Some None => Throw TypeError
  | Some (Some content) =>
      Normal (mkResult ("Meta: content=" ++ JS.DQUOTE ++ content ++ JS.DQUOTE)
                (if isRestrictive content then ok else bad))
  end.
Proof.
  intros F. destruct (metaTag w) as [[content |] |] eqn:M.
  - now rewrite (checkMetaTag_content cfg w content M), (funnel_is_inverted cfg w F).
  - now apply checkMetaTag_null.
  - now apply checkMetaTag_absent.
Qed.

Ltac break_hyps :=
  repeat match goal with
  | H : exists _, _ |- _ => destruct H
  | H : _ /\ _ |- _ => destruct H
  | H : _ \/ _ |- _ => destruct H
  | H : Normal _ = Normal _ |- _ => injection H as H; subst
  | H : Some _ = Some _ |- _ => injection H as H; subst
  end.

(** The left panel of a funnel page.  It is OK exactly when robots.txt was
    fetched and disallows the path, or the meta content is restrictive; it
    is NOT_FOUND exactly when neither robots.txt disallows the path (fetched
    or not) nor a meta tag exists; it is BAD exactly when robots.txt does
    not disallow the path and the meta content is not restrictive. *)
Theorem funnel_left_panel (cfg : Config) (w : World) :
  isFunnel cfg w = true ->
  let disallowed :=
    exists response,
      GM_xmlhttpRequest w GET (robotsTxtUrl cfg) = onload response /\
      isDisallowed (responseText response) (getNormalizedPathname w) = true in
  ((exists r, leftPanel cfg w = Normal r /\ status r = ok) <->
   disallowed \/
   exists content, metaTag w = Some (Some content) /\ Restrictive content) /\
  ((exists r, leftPanel cfg w = Normal r /\ status r = not_found) <->
   ~ disallowed /\ metaTag w = None) /\
  ((exists r, leftPanel cfg w = Normal r /\ status r = bad) <->
   ~ disallowed /\
   exists content, metaTag w = Some (Some content) /\ ~ Restrictive content).
Proof.
  intros F disallowed. subst disallowed.
  rewrite <- (robots_ok_iff cfg w (getNormalizedPathname w)).
  rewrite leftPanel_eq, F, (funnel_meta_check cfg w F).
  destruct (status (checkRobotsTxtForPath cfg w (getNormalizedPathname w))) eqn:S;
  destruct (metaTag w) as [[content |] |];
  try (pose proof (isRestrictive_iff content) as R;
       pose proof (isRestrictive_false_iff content) as R';
       destruct (isRestrictive content));
  repeat split; intros; break_hyps; cbn [status] in *;
  try discriminate; try congruence; try tauto;
  try (eexists; split; [reflexivity | reflexivity]);
  try (left; reflexivity).
  all: try (right; eexists; split; [reflexivity | tauto]).
  all: try (eexists; split; [reflexivity | tauto]).
  all: exfalso; intuition congruence.
Qed.

Lemma funnel_left_panel_witness :
  (exists r, leftPanel Sample.config Sample.funnelFetchError = Normal r /\ status r = ok) <->
  (exists response,
     GM_xmlhttpRequest Sample.funnelFetchError GET (robotsTxtUrl Sample.config)
       = onload response /\
     isDisallowed (responseText response)
       (getNormalizedPathname Sample.funnelFetchError) = true) \/
  exists content,
    metaTag Sample.funnelFetchError = Some (Some content) /\ Restrictive content.
Proof.
  apply (funnel_left_panel Sample.config Sample.funnelFetchError). reflexivity.
Defined.

(** On a page that is not a funnel the left panel is the meta check, and
    the run does not depend on what a GET request would answer: robots.txt
    plays no part. *)
Theorem ordinary_page_ignores_robots
    (cfg : Config) (w : World) (answers : Method -> string -> XhrOutcome) :
  isFunnel cfg w = false ->
  (forall url, answers HEAD url = GM_xmlhttpRequest w HEAD url) ->
  leftPanel cfg w = checkMetaTag cfg w /\
  runChecks cfg (withAnswers w answers) = runChecks cfg w.
Proof.
  intros F A. split.
  - now rewrite leftPanel_eq, F.
  - rewrite !runChecks_eq.
    change (isFunnel cfg (withAnswers w answers)) with (isFunnel cfg w).
    rewrite F.
    change (checkMetaTag cfg (withAnswers w answers)) with (checkMetaTag cfg w).
    assert (H : checkHeaderTag cfg (withAnswers w answers) = checkHeaderTag cfg w).
    { unfold checkHeaderTag. cbn [withAnswers GM_xmlhttpRequest location_href].
      now rewrite A. }
    now rewrite H.
Qed.

Lemma ordinary_page_ignores_robots_witness :
  leftPanel Sample.config Sample.homePage = checkMetaTag Sample.config Sample.homePage /\
  runChecks Sample.config
    (withAnswers Sample.homePage
       (Sample.answers (onload (mkResponse "Disallow: /" ""))
                       (onload Sample.plainHeaders)))
  = runChecks Sample.config Sample.homePage.
Proof.
  apply (ordinary_page_ignores_robots Sample.config Sample.homePage).
  - reflexivity.
  - intros url. reflexivity.
Defined.

(** ** The banner colours *)

(** The three statuses have three different colours, none of them the
    grey that every other status string gets. *)
Theorem status_colours :
  (forall s1 s2 : Status,
     getStatusColor (statusString s1) = getStatusColor (statusString s2) ->
     s1 = s2) /\
  (forall s : Status, getStatusColor (statusString s) <> "#616161") /\
  (forall str : string,
     (forall s : Status, str <> statusString s) ->
     getStatusColor str = "#616161").
Proof.
  split; [| split].
  - intros [] [] H; (reflexivity || discriminate).
  - intros []; discriminate.
  - intros str H. unfold getStatusColor.
    destruct (String.eqb_spec str "ok") as [E | _]; [now contradiction (H ok) |].
    destruct (String.eqb_spec str "bad") as [E | _]; [now contradiction (H bad) |].
    destruct (String.eqb_spec str "not-found") as [E | _];
      [now contradiction (H not_found) | reflexivity].
Qed.

(** ** Categories and the published configuration *)

(** Every page falls in exactly one of three categories: standard polarity
    (primary host, path outside the registry), funnel (primary host, path
    in the registry), or a page of another host; the last two have inverted
    polarity. *)
Theorem page_categories (cfg : Config) (w : World) :
  (shouldUseStandardLogic cfg w = true <->
   location_hostname w = "get-honey.ai" /\
   ~ In (getNormalizedPathname w) (funnelPaths cfg)) /\
  (isFunnel cfg w = true <->
   location_hostname w = "get-honey.ai" /\
   In (getNormalizedPathname w) (funnelPaths cfg)) /\
  (shouldUseStandardLogic cfg w = false <->
   isFunnel cfg w = true \/ location_hostname w <> "get-honey.ai").
Proof.
  pose proof (arrayIncludes_iff (funnelPaths cfg) (getNormalizedPathname w)) as A.
  pose proof (isFunnel_iff cfg w) as F.
  assert (S : shouldUseStandardLogic cfg w =
              String.eqb (location_hostname w) "get-honey.ai" && negb (isFunnel cfg w)).
  { unfold shouldUseStandardLogic, isFunnel. cbv zeta.
    now destruct (String.eqb (location_hostname w) "get-honey.ai"). }
  rewrite S. split; [| split; [exact F |]].
  - rewrite andb_true_iff, String.eqb_eq, negb_true_iff. split.
    + intros [E N]. split; [exact E |]. intros I.
      rewrite (proj2 F (conj E I)) in N. discriminate.
    + intros [E N]. split; [exact E |].
      destruct (isFunnel cfg w); [| reflexivity].
      now contradiction N; apply F.
  - rewrite andb_false_iff, String.eqb_neq, negb_false_iff. tauto.
Qed.

Lemma normalizePathname_empty_iff (p : string) :
  normalizePathname p = "" <-> p = "".
Proof.
  split; [| now intros ->].
  destruct (normalizePathname_cases p) as [[E _] | (q & -> & L & E)].
  - now rewrite E.
  - rewrite E. intros ->. simpl in L. lia.
Qed.

(** With the configuration as published, no page with a path is a funnel:
    the left panel is always the meta check. *)
Theorem shipped_config_has_no_funnel (w : World) :
  location_pathname w <> "" ->
  isFunnel shippedConfig w = false /\
  leftPanel shippedConfig w = checkMetaTag shippedConfig w.
Proof.
  intros N.
  assert (F : isFunnel shippedConfig w = false).
  { destruct (isFunnel shippedConfig w) eqn:F; [| reflexivity].
    apply isFunnel_iff in F as [_ [E | []]]. symmetry in E.
    rewrite getNormalizedPathname_eq in E.
    apply (proj1 (normalizePathname_empty_iff _)) in E. contradiction. }
  split; [exact F | now rewrite leftPanel_eq, F].
Qed.

Lemma shipped_config_has_no_funnel_witness :
  isFunnel shippedConfig Sample.funnelNoindex = false /\
  leftPanel shippedConfig Sample.funnelNoindex
  = checkMetaTag shippedConfig Sample.funnelNoindex.
Proof.
  apply (shipped_config_has_no_funnel Sample.funnelNoindex). discriminate.
Defined.

(** ** Capital letters in the path *)

Lemma segment_is_covered (seg rest x tail : string) :
  EveryChar NotSlashChar seg ->
  HeadChar SlashChar tail ->
  seg ++ rest = x ++ tail ->
  exists x', x = seg ++ x'.
Proof.
  revert x. induction seg as [|s seg IH]; intros x N T E.
  - now exists x.
  - destruct N as [N1 N2]. destruct x as [|b x]; simpl in E.
    + destruct tail as [|t tail]; [discriminate |].
      injection E as -> _. now contradiction N1.
    + injection E as -> E. destruct (IH x N2 T E) as [x' ->]. now exists x'.
Qed.

(** A path that has a capital letter between its leading slash and its
    second slash is disallowed by no document. *)
Theorem capital_segment_never_disallowed (doc seg rest : string) :
  EveryChar NotSlashChar seg ->
  ~ LowerCase seg ->
  isDisallowed doc ("/" ++ seg ++ rest) = false.
Proof.
  intros N U. destruct (isDisallowed doc ("/" ++ seg ++ rest)) eqn:D;
    [| reflexivity].
  exfalso. apply U, LowerCase_iff.
  unfold isDisallowed in D. apply existsb_exists in D as (rule & H & M).
  apply disallowedPaths_lower in H.
  apply (EveryChar_normalizePathname isLowerChar) in H.
  apply disallows_iff in M as [Ne M].
  assert (T : exists tail, "/" ++ seg ++ rest = normalizePathname rule ++ tail
                           /\ HeadChar SlashChar tail).
  { destruct M as [M | [r M]].
    - exists "". now rewrite app_empty_r.
    - exists ("/" ++ r). split; [exact M | reflexivity]. }
  destruct T as (tail & E & T).
  destruct (normalizePathname rule) as [|a c]; [contradiction |].
  simpl in E. injection E as _ E. destruct H as [_ H].
  destruct (segment_is_covered seg rest c tail N T E) as [x' ->].
  now apply EveryChar_app in H as [H _].
Qed.

Lemma capital_segment_never_disallowed_witness :
  isDisallowed "Disallow: /Quiz" ("/" ++ "Quiz" ++ "/step") = false.
Proof.
  apply (capital_segment_never_disallowed "Disallow: /Quiz" "Quiz" "/step").
  - cbn [EveryChar]. repeat split; discriminate.
  - discriminate.
Defined.

(** The normalizer keeps the path or removes its last character, a slash,
    and never empties a path. *)
Theorem normalizer_removes_at_most_a_slash (w : World) :
  (exists t, location_pathname w = getNormalizedPathname w ++ t /\
             (t = "" \/ t = "/")) /\
  (location_pathname w <> "" -> getNormalizedPathname w <> "").
Proof.
  rewrite getNormalizedPathname_eq. split.
  - destruct (normalizePathname_cases (location_pathname w))
      as [[E _] | (q & P & L & E)].
    + exists "". rewrite E, app_empty_r. now split; [| left].
    + exists "/". rewrite E. now split; [| right].
  - intros N E. apply N. now apply (proj1 (normalizePathname_empty_iff _)).
Qed.

Lemma normalizer_removes_at_most_a_slash_witness :
  getNormalizedPathname Sample.funnelNoindex <> "".
Proof.
  apply (proj2 (normalizer_removes_at_most_a_slash Sample.funnelNoindex)).
  discriminate.
Defined.
